(** * Student Result Management API: grading, result recording, transcripts

    A shallow embedding of [src/main.py] and [src/schemas.py].

    - Python [float] is IEEE 754 binary64 and is embedded as Rocq's primitive
      [float], so comparisons, sums, products and quotients are the machine's.
    - A MongoDB document is a store-assigned [_id] together with a finite map
      from field names to dynamically typed values.
    - The database is a finite map from collection names to the documents of
      each collection, in their natural order.
    - Request handlers run in a state-and-exception monad over the database:
      a handler either returns a value or raises, and in both cases leaves a
      database behind. *)

From Stdlib Require Import ZArith Ascii.
From Stdlib Require Import PrimFloat SpecFloat FloatOps FloatAxioms.
From stdpp Require Import gmap strings list.

Set Default Proof Using "Type".

(** ** Python numbers *)

Module Python.

Local Open Scope Z_scope.

(** The binary64 value nearest to the rational [p / q] ([0 <= p], [0 < q]),
    ties to even, with sign [s].  This is what [strtod] returns for a
    decimal string, in the range where the quotient is a normal number. *)
Definition nearest_float (s : bool) (p q : Z) : float :=
  if p =? 0 then (if s then neg_zero else zero) else
  let k0 := Z.log2 p - Z.log2 q - 53 in
  let scaled k := if 0 <=? k then (p, q * 2 ^ k) else (p * 2 ^ (- k), q) in
  let k := (let '(n, d) := scaled k0 in if 2 ^ 53 <=? n / d then k0 + 1 else k0) in
  let '(n, d) := scaled k in
  let m := n / d in
  let r := n mod d in
  let m' := if 2 * r <? d then m
            else if d <? 2 * r then m + 1
            else if Z.even m then m else m + 1 in
  SF2Prim (S754_finite s (Z.to_pos m') k).

(** The builtin [round(x, 2)] on a float.  CPython prints the exact binary
    value of [x] with two digits after the point, correctly rounded with
    ties to even, and reads the decimal string back; infinities and NaN
    round to themselves. *)
Definition round2 (x : float) : float :=
  match Prim2SF x with
  | S754_finite s m e =>
      if 0 <=? e then x else
      let d := 2 ^ (- e) in
      let n := Z.pos m * 100 in
      let q := n / d in
      let r := n mod d in
      let q' := if 2 * r <? d then q
                else if d <? 2 * r then q + 1
                else if Z.even q then q else q + 1 in
      nearest_float s q' 100
  | _ => x
  end.

(** An [int] operand of a float operation is converted to the nearest
    float, ties to even ([PyLong_AsDouble]). *)
Definition float_of_int (z : Z) : float :=
  SF2Prim (binary_normalize prec emax z 0 false).

End Python.

(** ** Values, documents, exceptions *)

(** The values a field of a stored document holds under the schemas of
    [src/schemas.py]: [None], a float, an int or a string. *)
Inductive value : Type :=
| VNone
| VFloat (f : float)
| VInt (z : Z)
| VStr (s : string).

(** A [bson.ObjectId], kept as the lower-case hexadecimal digits that
    [str] prints, two for each of its bytes: 24 for an identifier of twelve
    bytes, as the store generates them. *)
Inductive ObjectId : Type :=
| Oid (hex : string).

#[global] Instance ObjectId_eq_dec : EqDecision ObjectId.
Proof. solve_decision. Defined.

Definition str (oid : ObjectId) : string :=
  match oid with Oid hex => hex end.

(** A hexadecimal digit, in lower case. *)
Definition hex_lower (c : ascii) : option ascii :=
  let n := N_of_ascii c in
  if ((48 <=? n) && (n <=? 57) || (97 <=? n) && (n <=? 102))%N then Some c
  else if ((65 <=? n) && (n <=? 70))%N then Some (ascii_of_N (n + 32))
  else None.

(** The characters that [bytes.fromhex] skips: the ASCII whitespace, tab to
    carriage return and the space. *)
Definition is_space (c : ascii) : bool :=
  let n := N_of_ascii c in
  ((9 <=? n) && (n <=? 13) || (n =? 32))%N.

(** [bytes.fromhex] on the characters of a string, with the bytes it
    returns written as [hexlify] prints them.  It reads two hexadecimal
    digits for each byte and skips whitespace before a byte and at the end
    of the string, not between the two digits of a byte; [None] stands for
    its [ValueError]. *)
Fixpoint fromhex (l : list ascii) : option (list ascii) :=
  match l with
  | [] => Some []
  | c :: l' =>
      if is_space c then fromhex l'
      else match l' with
           | [] => None
           | c' :: l'' =>
               match hex_lower c, hex_lower c', fromhex l'' with
               | Some top, Some bot, Some rest => Some (top :: bot :: rest)
               | _, _, _ => None
               end
           end
  end.

(** [ObjectId(s)] on a string: [bson] wants 24 characters and takes the
    bytes that [bytes.fromhex] makes of them; [None] stands for
    [InvalidId].  So 24 hexadecimal digits of either case make an
    identifier of twelve bytes, and 24 characters with whitespace between
    the bytes are accepted too and make an identifier of fewer bytes. *)
Definition ObjectId_of_str (s : string) : option ObjectId :=
  if bool_decide (String.length s = 24%nat)
  then hex ← fromhex (String.list_ascii_of_string s);
       Some (Oid (String.string_of_list_ascii hex))
  else None.

(** A Python [dict] with string keys. *)
Abbreviation dict := (gmap string value).

(** [d.get(key)]: [None] when the key is missing. *)
Definition get (d : dict) (key : string) : value :=
  default VNone (d !! key).

(** [d.get(key, dflt)]. *)
Definition get_default (d : dict) (key : string) (dflt : value) : value :=
  default dflt (d !! key).

(** A document of a collection: the store's [_id] and the other fields. *)
Record document : Type := Doc {
  _id : ObjectId;
  fields : dict;
}.

(** What a handler can raise.  [HTTPException] is FastAPI's, raised by the
    handlers themselves; [ValidationError] is Pydantic's, raised by a model
    constructor whose field constraints fail; [OperationFailure] is the
    driver's, raised when the server rejects a command; the others are the
    interpreter's. *)
Inductive exn : Type :=
| HTTPException (status_code : Z) (detail : string)
| ValidationError
| OperationFailure
| TypeError
| OverflowError.

(** ** Computations that may raise *)

#[global] Instance exn_ret : MRet (sum exn) := λ A x, inr x.
#[global] Instance exn_bind : MBind (sum exn) := λ A B f m,
  match m with
  | inl e => inl e
  | inr x => f x
  end.

(** ** Handlers: state of the database and exceptions *)

Abbreviation database := (gmap string (list document)).

Definition M (A : Type) : Type := database → (exn + A) * database.

#[global] Instance M_ret : MRet M := λ A x db, (inr x, db).
#[global] Instance M_bind : MBind M := λ A B f m db,
  match m db with
  | (inl e, db') => (inl e, db')
  | (inr x, db') => f x db'
  end.

Definition raise {A : Type} (e : exn) : M A := λ db, (inl e, db).

(** A computation that only raises or returns runs in a handler without
    touching the database. *)
Definition lift {A : Type} (r : exn + A) : M A := λ db, (r, db).

(** ** The document store (the driver's collection methods) *)

Module Mongo.

(** [db[name]]: a collection that was never written to is empty. *)
Definition collection (db : database) (name : string) : list document :=
  default [] (db !! name).

(** The query [{"_id": oid}].  The [_id] of a stored document is a BSON
    object identifier, of twelve bytes.  An [ObjectId] of another size,
    which Python makes of a string with whitespace, is taken to be the
    [_id] of no document; how the driver encodes one is not in the
    sources. *)
Definition by_id (oid : ObjectId) (docs : list document) : list document :=
  filter (λ d, _id d = oid ∧ String.length (str oid) = 24%nat) docs.

(** A query document whose values are strings, [{key: s, ...}]: a document
    matches when each named field is present and holds that string. *)
Definition field_is_str (d : dict) (key s : string) : bool :=
  match d !! key with
  | Some (VStr s') => bool_decide (s' = s)
  | _ => false
  end.

Definition matches (filt : gmap string string) (d : document) : bool :=
  bool_decide (map_Forall (λ key s, field_is_str (fields d) key s) filt).

(** [db[name].count_documents({"_id": oid})] *)
Definition count_documents (name : string) (oid : ObjectId) : M nat :=
  λ db, (inr (length (by_id oid (collection db name))), db).

(** [db[name].find_one({"_id": oid})] *)
Definition find_one (name : string) (oid : ObjectId) : M (option document) :=
  λ db, (inr (head (by_id oid (collection db name))), db).

(** [list(db[name].find(filt))] *)
Definition find (name : string) (filt : gmap string string) : M (list document) :=
  λ db, (inr (filter (λ d, matches filt d) (collection db name)), db).

(** [db[name].insert_one(d)] *)
Definition insert_one (name : string) (d : document) : M unit :=
  λ db, (inr tt, <[name := collection db name ++ [d]]> db).

(** *** The stages of the transcript pipeline *)

(** [{"$match": {key: s}}] *)
Definition match_stage (key s : string) (docs : list document) : list document :=
  filter (λ d, field_is_str (fields d) key s) docs.

(** The identifier that the server reads in a string: exactly 24
    hexadecimal digits of either case, and nothing else. *)
Definition ObjectId_of_hex (s : string) : option ObjectId :=
  if bool_decide (String.length s = 24%nat)
  then hex ← mapM hex_lower (String.list_ascii_of_string s);
       Some (Oid (String.string_of_list_ascii hex))
  else None.

(** The operator [$toObjectId]: null for a missing or null operand, the
    identifier for a string of 24 hexadecimal digits, and a failure of
    the whole command for anything else. *)
Definition toObjectId (v : option value) : exn + option ObjectId :=
  match v with
  | None | Some VNone => inr None
  | Some (VStr s) =>
      match ObjectId_of_hex s with
      | Some oid => inr (Some oid)
      | None => inl OperationFailure
      end
  | Some _ => inl OperationFailure
  end.

(** [{"$addFields": {new: {"$toObjectId": "$key"}}}]: each document with
    its new field. *)
Definition addFields_toObjectId (key : string) (docs : list document)
  : exn + list (document * option ObjectId) :=
  mapM (λ d, oid ← toObjectId (fields d !! key); mret (d, oid)) docs.

(** [{"$lookup": {"from": coll, "localField": new, "foreignField": "_id",
    "as": ...}}]: each document with the array of the documents of [coll]
    whose [_id] is its local field; a null local field matches none, as
    every document has an [_id]. *)
Definition foreign_matches (foreign : list document) (local : option ObjectId)
  : list document :=
  match local with
  | Some oid => by_id oid foreign
  | None => []
  end.

Definition lookup_by_id (foreign : list document)
    (docs : list (document * option ObjectId)) : list (document * list document) :=
  map (λ '(d, local), (d, foreign_matches foreign local)) docs.

(** [{"$unwind": "$as"}]: one output per element of the array, none for
    an empty array. *)
Definition unwind (docs : list (document * list document))
  : list (document * document) :=
  flat_map (λ '(d, arr), map (λ c, (d, c)) arr) docs.

End Mongo.

(** ** [src/schemas.py] *)

Module schemas.

(** The model [Result]. *)
Record Result : Type := {
  student_id : string;
  course_id : string;
  marks : float;
  grade : option string;
  grade_point : option float;
}.

(** The constructor [Result(...)]: of the field constraints only those of
    [marks] can fail on typed arguments; Pydantic raises for marks that
    compare greater than [le=100] or less than [ge=0]. *)
Definition Result_new (student_id course_id : string) (marks : float)
    (grade : option string) (grade_point : option float) : exn + Result :=
  if ((100 <? marks) || (marks <? 0))%float
  then inl ValidationError
  else inr {| student_id := student_id; course_id := course_id;
              marks := marks; grade := grade; grade_point := grade_point |}.

(** [model_dump()]: the model as a dict. *)
Definition model_dump (r : Result) : dict :=
  list_to_map
    [ ("student_id", VStr (student_id r));
      ("course_id", VStr (course_id r));
      ("marks", VFloat (marks r));
      ("grade", from_option VStr VNone (grade r));
      ("grade_point", from_option VFloat VNone (grade_point r)) ].

(** The model [Student]. *)
Record Student : Type := {
  first_name : string;
  last_name : string;
  roll_number : string;
  class_name : string;
  year : Z;
  email : option string;
}.

Definition Student_model_dump (s : Student) : dict :=
  list_to_map
    [ ("first_name", VStr (first_name s));
      ("last_name", VStr (last_name s));
      ("roll_number", VStr (roll_number s));
      ("class_name", VStr (class_name s));
      ("year", VInt (year s));
      ("email", from_option VStr VNone (email s)) ].

End schemas.

(** ** The [database] module *)

(** Modelled from the spec: the module [database] is not among the sources.
    [create_document] is the store's [insert(collection, document) -> id]:
    it adds the document to the collection under a newly generated
    identifier, here [new_id], and returns that identifier as a string. *)
Definition create_document (new_id : ObjectId) (collection_name : string)
    (data : dict) : M string :=
  _ ← Mongo.insert_one collection_name (Doc new_id data);
  mret (str new_id).

(** Modelled from the spec: [get_documents] is the store's
    [findMany(collection, filter)]: the documents of the collection that
    match the filter, all of them for the empty filter. *)
Definition get_documents (collection_name : string) (filt : gmap string string)
  : M (list document) :=
  Mongo.find collection_name filt.

(** ** [src/main.py] *)

Definition to_object_id (id_str : string) : exn + ObjectId :=
  match ObjectId_of_str id_str with
  | Some oid => inr oid
  | None => inl (HTTPException 400 "Invalid id format")
  end.

Definition calculate_grade (marks : float) : string * float :=
  if (90 <=? marks)%float then ("A+", 10%float)
  else if (80 <=? marks)%float then ("A", 9%float)
  else if (70 <=? marks)%float then ("B", 8%float)
  else if (60 <=? marks)%float then ("C", 7%float)
  else if (50 <=? marks)%float then ("D", 6%float)
  else if (40 <=? marks)%float then ("E", 5%float)
  else ("F", 0%float).

(** The request model [ResultCreate]: no constraint on [marks]. *)
Record ResultCreate : Type := {
  student_id : string;
  course_id : string;
  marks : float;
}.

(** [d] as the handlers return it, with [d["_id"] = str(d["_id"])]. *)
Definition with_str_id (d : document) : dict :=
  <["_id" := VStr (str (_id d))]> (fields d).

Definition create_result (new_id : ObjectId) (result : ResultCreate) : M dict :=
  oid ← lift (to_object_id (student_id result));
  n ← Mongo.count_documents "student" oid;
  if bool_decide (n = 0%nat) then raise (HTTPException 404 "Student not found") else
  oid ← lift (to_object_id (course_id result));
  n ← Mongo.count_documents "course" oid;
  if bool_decide (n = 0%nat) then raise (HTTPException 404 "Course not found") else
  let '(grade, grade_point) := calculate_grade (marks result) in
  payload ← lift (schemas.Result_new (student_id result) (course_id result)
                    (marks result) (Some grade) (Some grade_point));
  result_id ← create_document new_id "result" (schemas.model_dump payload);
  mret (list_to_map [ ("id", VStr result_id);
                      ("grade", VStr grade);
                      ("grade_point", VFloat grade_point) ]).

Definition list_results (student_id : option string) : M (list dict) :=
  let filt : gmap string string := ∅ in
  let filt :=
    match student_id with
    | Some s => if bool_decide (s = "") then filt else <["student_id" := s]> filt
    | None => filt
    end in
  docs ← get_documents "result" filt;
  mret (map with_str_id docs).

(** *** Arithmetic of the transcript loop

    The operands come out of stored documents, so they are dynamically
    typed.  Floats and ints multiply and add as Python's do; every other
    combination ends in an exception before the loop body completes ([None]
    and [str] operands raise [TypeError]: at the product, or for a [str]
    repeated by an [int], at the sum that follows). *)

(** An [int] operand of a float operation; Python raises when it is too
    large for a float. *)
Definition as_float (z : Z) : exn + float :=
  let f := Python.float_of_int z in
  if is_infinity f then inl OverflowError else inr f.

(** [a * b] *)
Definition mul (a b : value) : exn + value :=
  match a, b with
  | VFloat x, VFloat y => inr (VFloat (x * y))
  | VFloat x, VInt z => y ← as_float z; mret (VFloat (x * y))
  | VInt z, VFloat y => x ← as_float z; mret (VFloat (x * y))
  | VInt x, VInt y => inr (VInt (x * y))
  | _, _ => inl TypeError
  end.

(** [total += b] for a float [total] *)
Definition add_to (total : float) (b : value) : exn + float :=
  match b with
  | VFloat y => inr (total + y)%float
  | VInt z => y ← as_float z; mret (total + y)%float
  | _ => inl TypeError
  end.

(** A [for] loop over [l] that threads [acc] and stops at the first
    exception. *)
Fixpoint for_each {A B : Type} (body : A → B → exn + A) (l : list B) (acc : A)
  : exn + A :=
  match l with
  | [] => inr acc
  | x :: l => acc ← body acc x; for_each body l acc
  end.

(** *** The transcript *)

Record Transcript : Type := {
  student : dict;
  gpa : float;
  results : list dict;
}.

(** The aggregation pipeline of [get_transcript] on the collection
    [result]; each record it yields is a result document with the course
    document joined under ["course"]. *)
Definition pipeline (student_id : string) (db : database)
  : exn + list (document * document) :=
  let docs := Mongo.match_stage "student_id" student_id (Mongo.collection db "result") in
  docs ← Mongo.addFields_toObjectId "course_id" docs;
  let docs := Mongo.lookup_by_id (Mongo.collection db "course") docs in
  mret (Mongo.unwind docs).

(** [list(db["result"].aggregate(pipeline))] *)
Definition aggregate (student_id : string) : M (list (document * document)) :=
  λ db, (pipeline student_id db, db).

(** The body of the loop over [records]; [r.1] holds the fields of the
    result document and [r.2] is [r["course"]]. *)
Definition transcript_row (acc : float * float * list dict) (r : document * document)
  : exn + (float * float * list dict) :=
  let '(total_points, total_credits, transcript_items) := acc in
  let credits := get_default (fields r.2) "credits" (VInt 0) in
  let gp := get_default (fields r.1) "grade_point" (VFloat 0) in
  points ← mul gp credits;
  total_points ← add_to total_points points;
  total_credits ← add_to total_credits credits;
  mret (total_points, total_credits,
        transcript_items ++
          [ list_to_map
              [ ("course_code", get (fields r.2) "code");
                ("course_title", get (fields r.2) "title");
                ("credits", credits);
                ("marks", get (fields r.1) "marks");
                ("grade", get (fields r.1) "grade");
                ("grade_point", gp) ] ]).

(** The dict returned under ["student"]. *)
Definition student_summary (student : document) : dict :=
  list_to_map
    [ ("id", VStr (str (_id student)));
      ("first_name", get (fields student) "first_name");
      ("last_name", get (fields student) "last_name");
      ("roll_number", get (fields student) "roll_number");
      ("class_name", get (fields student) "class_name");
      ("year", get (fields student) "year") ].

Definition get_transcript (student_id : string) : M Transcript :=
  oid ← lift (to_object_id student_id);
  found ← Mongo.find_one "student" oid;
  match found with
  | None => raise (HTTPException 404 "Student not found")
  | Some student =>
      records ← aggregate student_id;
      '(total_points, total_credits, transcript_items) ←
        lift (for_each transcript_row records (0%float, 0%float, []));
      let gpa := if (0 <? total_credits)%float
                 then Python.round2 (total_points / total_credits)
                 else 0%float in
      mret {| student := student_summary student;
              gpa := gpa;
              results := transcript_items |}
  end.

(** *** The student handler

    [StudentCreate] adds nothing to [Student]; the handler receives a model
    that the constructor accepted. *)

Definition create_student (new_id : ObjectId) (student : schemas.Student) : M dict :=
  student_id ← create_document new_id "student" (schemas.Student_model_dump student);
  mret (list_to_map [ ("id", VStr student_id) ]).

(** ** The specification's vocabulary *)

(** The error kinds of the specification, as the handlers raise them. *)
Definition NotFoundError (what : string) : exn :=
  HTTPException 404 (what +:+ " not found").

Definition InvalidIdFormat : exn :=
  HTTPException 400 "Invalid id format".

(** The band table of the Grade Calculator, highest band first: lower
    bound, letter grade, grade point. *)
Definition grade_bands : list (float * (string * float)) :=
  [ (90, ("A+", 10)); (80, ("A", 9)); (70, ("B", 8));
    (60, ("C", 7)); (50, ("D", 6)); (40, ("E", 5)) ]%float.

(** The first band, highest first, whose lower bound is at most [marks];
    F with 0.0 when there is none. *)
Fixpoint band_of (bands : list (float * (string * float))) (marks : float)
  : string * float :=
  match bands with
  | [] => ("F", 0%float)
  | (lower, g) :: bands => if (lower <=? marks)%float then g else band_of bands marks
  end.

(** [marks] lies outside [[0, 100]]: below 0 or above 100. *)
Definition out_of_range (marks : float) : bool :=
  ((marks <? 0) || (100 <? marks))%float.

(** The identifier resolves to a document of the collection: the query by
    it finds one. *)
Definition resolves (db : database) (name : string) (oid : ObjectId) : Prop :=
  ∃ d, d ∈ Mongo.by_id oid (Mongo.collection db name).

(** The result document that a successful [create_result] stores. *)
Definition result_document (new_id : ObjectId) (result : ResultCreate) : document :=
  let g := calculate_grade (marks result) in
  Doc new_id (list_to_map
    [ ("student_id", VStr (student_id result));
      ("course_id", VStr (course_id result));
      ("marks", VFloat (marks result));
      ("grade", VStr g.1);
      ("grade_point", VFloat g.2) ]).

(** Two results recorded for a student, of 95 and of 65 marks, and the
    transcript read back. *)
Definition record_and_read (student_id course1 course2 : string) (n1 n2 : ObjectId)
  : M Transcript :=
  _ ← create_result n1 {| student_id := student_id; course_id := course1; marks := 95 |};
  _ ← create_result n2 {| student_id := student_id; course_id := course2; marks := 65 |};
  get_transcript student_id.

(** The line item of a joined record. *)
Definition transcript_item (r : document * document) : dict :=
  list_to_map
    [ ("course_code", get (fields r.2) "code");
      ("course_title", get (fields r.2) "title");
      ("credits", get_default (fields r.2) "credits" (VInt 0));
      ("marks", get (fields r.1) "marks");
      ("grade", get (fields r.1) "grade");
      ("grade_point", get_default (fields r.1) "grade_point" (VFloat 0)) ].

(** The sum of a list of numbers, from 0.0, in order. *)
Definition total (vs : list value) : exn + float :=
  for_each add_to vs 0%float.

(** The GPA of a list of line items: the credit-weighted mean of the grade
    points, rounded to two decimals, and 0.0 when the credits do not sum
    to a positive number. *)
Definition gpa_of_items (items : list dict) : exn + float :=
  points ← mapM (λ item, mul (get item "grade_point") (get item "credits")) items;
  total_points ← total points;
  total_credits ← total ((λ item, get item "credits") <$> items);
  mret (if (0 <? total_credits)%float
        then Python.round2 (total_points / total_credits)
        else 0%float).

(** [r] is [x] rounded to two decimals.  A finite [x] is [m × 2^e] with a
    sign; when [e] is negative, [r] is the float nearest to [k / 100] with
    that sign, where [k] is the integer nearest to [100 × m × 2^e], the even
    one of two that are equally near.  A float with [0 <= e] is an integer
    and is its own rounding, as are the zeros, the infinities and NaN. *)
Definition rounded_to_two_decimals (x r : float) : Prop :=
  match Prim2SF x with
  | S754_finite s m e =>
      if (0 <=? e)%Z then r = x else
      ∃ k : Z,
        r = Python.nearest_float s k 100
        ∧ (2 * Z.abs (100 * Z.pos m - k * 2 ^ (- e)) < 2 ^ (- e)
           ∨ 2 * Z.abs (100 * Z.pos m - k * 2 ^ (- e)) = 2 ^ (- e)
             ∧ Z.even k = true)%Z
  | _ => r = x
  end.

(** The course reference of a result document is an identifier (or is
    absent) and no course has it. *)
Definition dangling (db : database) (res : document) : Prop :=
  match Mongo.toObjectId (fields res !! "course_id") with
  | inr (Some oid) => ¬ resolves db "course" oid
  | inr None => True
  | inl _ => False
  end.

(** The database with the documents of one collection replaced. *)
Definition with_collection (name : string) (docs : list document) (db : database)
  : database :=
  <[name := docs]> db.

(** The stages of the pipeline after [$match], on the matched documents. *)
Definition joined (courses docs : list document) : exn + list (document * document) :=
  docs ← Mongo.addFields_toObjectId "course_id" docs;
  mret (Mongo.unwind (Mongo.lookup_by_id courses docs)).

(** The outcome of a handler under a function of the value it returns. *)
Definition on_return {A B : Type} (f : A → B) (r : exn + A) : exn + B :=
  match r with
  | inl e => inl e
  | inr x => inr (f x)
  end.

(** The database with the marks of every result document rewritten, and a
    transcript without the marks it echoes. *)
Definition set_marks (f : document → value) (res : document) : document :=
  Doc (_id res) (<["marks" := f res]> (fields res)).

Definition with_marks (f : document → value) (db : database) : database :=
  with_collection "result" (set_marks f <$> Mongo.collection db "result") db.

Definition without_marks (t : Transcript) : Transcript :=
  {| student := student t; gpa := gpa t; results := delete "marks" <$> results t |}.

(** ** A small database *)

Module Demo.

Definition ada : ObjectId := Oid "aaaaaaaaaaaaaaaaaaaaaaaa".
Definition maths : ObjectId := Oid "bbbbbbbbbbbbbbbbbbbbbbb1".
Definition physics : ObjectId := Oid "bbbbbbbbbbbbbbbbbbbbbbb2".
Definition nobody : ObjectId := Oid "dddddddddddddddddddddddd".

(** One student and two courses, of 3 and of 2 credits; no result. *)
Definition db : database :=
  list_to_map
    [ ("student",
        [ Doc ada (list_to_map
            [ ("first_name", VStr "Ada"); ("last_name", VStr "Lovelace");
              ("roll_number", VStr "R-1"); ("class_name", VStr "BSc-1");
              ("year", VInt 2024); ("email", VNone) ]) ]);
      ("course",
        [ Doc maths (list_to_map
            [ ("code", VStr "MATH101"); ("title", VStr "Calculus");
              ("credits", VFloat 3) ]);
          Doc physics (list_to_map
            [ ("code", VStr "PHYS101"); ("title", VStr "Mechanics");
              ("credits", VFloat 2) ]) ]) ].

Definition request (course : ObjectId) (marks : float) : ResultCreate :=
  {| student_id := str ada; course_id := str course; marks := marks |}.

(** 95 marks in the 3-credit course, then 65 in the 2-credit one. *)
Definition record_two : M unit :=
  _ ← create_result (Oid "ccccccccccccccccccccccc1") (request maths 95);
  _ ← create_result (Oid "ccccccccccccccccccccccc2") (request physics 65);
  mret ().

Definition db_two : database := (record_two db).2.

(** A result whose stored grade point is not the one of its marks, and
    one whose course is not in the store. *)
Definition odd_result : document :=
  Doc (Oid "ccccccccccccccccccccccc3") (list_to_map
    [ ("student_id", VStr (str ada)); ("course_id", VStr (str maths));
      ("marks", VFloat 95); ("grade", VStr "E"); ("grade_point", VFloat 5) ]).

Definition orphan_result : document :=
  Doc (Oid "ccccccccccccccccccccccc4") (list_to_map
    [ ("student_id", VStr (str ada)); ("course_id", VStr (str nobody));
      ("marks", VFloat 95); ("grade", VStr "A+"); ("grade_point", VFloat 10) ]).

(** The two recorded results and the one without a course; the odd result
    alone. *)
Definition db_orphan : database :=
  with_collection "result"
    (Mongo.collection db_two "result" ++ [orphan_result]) db_two.

Definition db_odd : database := with_collection "result" [odd_result] db.

End Demo.

(** ** Identifiers of the store *)

(** An identifier that [str] and [ObjectId] read back as itself, as the
    identifiers the store generates are. *)
Definition genuine (oid : ObjectId) : Prop :=
  ObjectId_of_str (str oid) = Some oid.

(** * Properties *)

(** ** Computations that may raise *)

Section raising.

Context {A B : Type}.

Lemma bind_inr (f : A → exn + B) (x : A) : (inr x ≫= f) = f x.
Proof. reflexivity. Qed.

Lemma bind_mret (f : A → exn + B) (x : A) : (mret x ≫= f) = f x.
Proof. reflexivity. Qed.

End raising.

(** ** The order of floats *)

Section float_order.

Local Open Scope float_scope.

Lemma SFcompare_Lt_Gt (x y : spec_float) :
  SFcompare x y = Some Lt → SFcompare y x = Some Gt.
Proof.
  destruct x as [[]|[]| |[] mx ex], y as [[]|[]| |[] my ey]; simpl;
    try discriminate; try reflexivity;
    rewrite (Z.compare_antisym ex ey);
    change (Pos.compare_cont Eq my mx) with (Pos.compare my mx);
    change (Pos.compare_cont Eq mx my) with (Pos.compare mx my);
    rewrite (Pos.compare_antisym mx my);
    destruct (ex ?= ey)%Z, (mx ?= my)%positive; simpl; congruence.
Qed.

Lemma SFcompare_Lt_trans (x y z : spec_float) :
  SFcompare x y = Some Lt → SFcompare y z = Some Lt → SFcompare x z = Some Lt.
Proof.
  destruct x as [[]|[]| |[] mx ex], y as [[]|[]| |[] my ey], z as [[]|[]| |[] mz ez];
    simpl; try discriminate; try reflexivity;
    change (Pos.compare_cont Eq) with Pos.compare;
    destruct (Z.compare_spec ex ey), (Z.compare_spec ey ez), (Z.compare_spec ex ez);
    try discriminate; try reflexivity; try lia;
    destruct (Pos.compare_spec mx my), (Pos.compare_spec my mz), (Pos.compare_spec mx mz);
    simpl; try discriminate; try reflexivity; try lia.
Qed.

(** [x < y] excludes [y <= x]. *)
Lemma ltb_leb_false (x y : float) : (x <? y) = true → (y <=? x) = false.
Proof.
  rewrite ltb_spec, leb_spec. unfold SFltb, SFleb.
  destruct (SFcompare (Prim2SF x) (Prim2SF y)) as [[]|] eqn:E; try discriminate.
  intros _. by rewrite (SFcompare_Lt_Gt _ _ E).
Qed.

Lemma ltb_trans (x y z : float) : (x <? y) = true → (y <? z) = true → (x <? z) = true.
Proof.
  rewrite !ltb_spec. unfold SFltb.
  destruct (SFcompare (Prim2SF x) (Prim2SF y)) as [[]|] eqn:E1; try discriminate.
  destruct (SFcompare (Prim2SF y) (Prim2SF z)) as [[]|] eqn:E2; try discriminate.
  intros _ _. by rewrite (SFcompare_Lt_trans _ _ _ E1 E2).
Qed.

End float_order.

(** ** The Grade Calculator *)

Section grade_calculator.

Local Open Scope float_scope.

(** The chain of tests of [calculate_grade] is the band table read
    highest band first. *)
Lemma calculate_grade_band_of (marks : float) :
  calculate_grade marks = band_of grade_bands marks.
Proof. reflexivity. Qed.

(** Marks at least a lower bound and below the bound of the band above
    fall in that band. *)
Lemma band_of_between (above below : list (float * (string * float)))
    (lower : float) (g : string * float) (marks : float) :
  Forall (λ b, (marks <? b.1) = true) above →
  (lower <=? marks) = true →
  band_of (above ++ (lower, g) :: below) marks = g.
Proof.
  intros Habove Hlower. induction Habove as [|[up g'] above Hup _ IH]; simpl.
  - by rewrite Hlower.
  - simpl in Hup. by rewrite (ltb_leb_false _ _ Hup).
Qed.

(** Marks below every lower bound get F. *)
Lemma band_of_below (bands : list (float * (string * float))) (marks : float) :
  Forall (λ b, (marks <? b.1) = true) bands →
  band_of bands marks = ("F"%string, 0).
Proof.
  induction 1 as [|[up g] bands Hup _ IH]; simpl; [done|].
  simpl in Hup. by rewrite (ltb_leb_false _ _ Hup).
Qed.

(** Below a bound of the table, below all the bounds above it. *)
Lemma below_higher_bounds (marks upper : float)
    (above : list (float * (string * float))) :
  (marks <? upper) = true →
  Forall (λ b, (upper <? b.1) = true ∨ upper = b.1) above →
  Forall (λ b, (marks <? b.1) = true) above.
Proof.
  intros Hm Habove. eapply Forall_impl; [exact Habove|].
  intros b [Hb | <-]; [by eapply ltb_trans | done].
Qed.

End grade_calculator.

(** C1.  The Grade Calculator returns the pair of the band table, lower
    bounds inclusive and bands tried highest first: at least 90 is A+ with
    10.0; at least 80 and below 90 is A with 9.0; then B with 8.0 from 70,
    C with 7.0 from 60, D with 6.0 from 50 and E with 5.0 from 40; anything
    below 40 is F with 0.0.  So 90 and 100 give A+, 89.999 gives A, and 39
    and 0 give F. *)
Theorem calculate_grade_bands (marks : float) :
  calculate_grade marks = band_of grade_bands marks
  ∧ ((90 <=? marks)%float = true → calculate_grade marks = ("A+", 10%float))
  ∧ ((80 <=? marks)%float = true → (marks <? 90)%float = true →
     calculate_grade marks = ("A", 9%float))
  ∧ ((70 <=? marks)%float = true → (marks <? 80)%float = true →
     calculate_grade marks = ("B", 8%float))
  ∧ ((60 <=? marks)%float = true → (marks <? 70)%float = true →
     calculate_grade marks = ("C", 7%float))
  ∧ ((50 <=? marks)%float = true → (marks <? 60)%float = true →
     calculate_grade marks = ("D", 6%float))
  ∧ ((40 <=? marks)%float = true → (marks <? 50)%float = true →
     calculate_grade marks = ("E", 5%float))
  ∧ ((marks <? 40)%float = true → calculate_grade marks = ("F", 0%float))
  ∧ calculate_grade 90 = ("A+", 10%float)
  ∧ calculate_grade 0x1.67fef9db22d0ep+6 (* 89.999 *) = ("A", 9%float)
  ∧ calculate_grade 39 = ("F", 0%float)
  ∧ calculate_grade 0 = ("F", 0%float)
  ∧ calculate_grade 100 = ("A+", 10%float).
Proof.
  split; [reflexivity|].
  split; [intros H; unfold calculate_grade; by rewrite H|].
  repeat lazymatch goal with
  | |- (_ → _ → _) ∧ _ =>
      split;
      [ intros Hlo Hup; rewrite calculate_grade_band_of;
        first
          [ apply (band_of_between (take 1 grade_bands) (drop 2 grade_bands))
          | apply (band_of_between (take 2 grade_bands) (drop 3 grade_bands))
          | apply (band_of_between (take 3 grade_bands) (drop 4 grade_bands))
          | apply (band_of_between (take 4 grade_bands) (drop 5 grade_bands))
          | apply (band_of_between (take 5 grade_bands) (drop 6 grade_bands)) ];
        [ apply (below_higher_bounds _ _ _ Hup);
          repeat constructor; (by left) || (by right)
        | exact Hlo ]
      | ]
  end.
  split.
  - intros Hup. rewrite calculate_grade_band_of. apply band_of_below.
    apply (below_higher_bounds _ _ _ Hup).
    repeat constructor; (by left) || (by right).
  - repeat split; reflexivity.
Qed.

(** The table at 85 marks: at least 80 and below 90. *)
Lemma calculate_grade_bands_85 : calculate_grade 85 = ("A", 9%float).
Proof.
  destruct (calculate_grade_bands 85) as (_ & _ & HA & _).
  apply HA; reflexivity.
Defined.

(** ** The store *)

Section store.

Implicit Types (db : database) (oid : ObjectId) (docs : list document).

(** What the query by an identifier finds. *)
Lemma elem_of_by_id oid docs (d : document) :
  d ∈ Mongo.by_id oid docs
  ↔ d ∈ docs ∧ _id d = oid ∧ String.length (str oid) = 24.
Proof. unfold Mongo.by_id. rewrite list_elem_of_filter. tauto. Qed.

Lemma by_id_nil_iff oid docs :
  Mongo.by_id oid docs = [] ↔ ¬ ∃ d, d ∈ Mongo.by_id oid docs.
Proof.
  split.
  - intros -> (d & Hd). by apply not_elem_of_nil in Hd.
  - intros Hnone. destruct (Mongo.by_id oid docs) as [|d rest]; [done|].
    exfalso. apply Hnone. exists d. left.
Qed.

(** An existence check counts no document exactly when the identifier
    does not resolve. *)
Lemma count_zero_iff db name oid :
  length (Mongo.by_id oid (Mongo.collection db name)) = 0 ↔ ¬ resolves db name oid.
Proof.
  unfold resolves. rewrite <- by_id_nil_iff. apply length_zero_iff_nil.
Qed.

Lemma head_by_id_None db name oid :
  head (Mongo.by_id oid (Mongo.collection db name)) = None ↔ ¬ resolves db name oid.
Proof.
  unfold resolves. rewrite <- by_id_nil_iff.
  destruct (Mongo.by_id oid _); simpl; split; done.
Qed.

Lemma head_by_id_Some db name oid d :
  head (Mongo.by_id oid (Mongo.collection db name)) = Some d → resolves db name oid.
Proof.
  intros Hd. exists d.
  destruct (Mongo.by_id oid _); simplify_eq/=; left.
Qed.

(** Replacing a collection leaves the others as they were. *)
Lemma collection_with_collection_ne name name' docs db :
  name ≠ name' →
  Mongo.collection (with_collection name docs db) name' = Mongo.collection db name'.
Proof.
  intros Hne. unfold Mongo.collection, with_collection.
  by rewrite lookup_insert_ne.
Qed.

Lemma collection_with_collection name docs db :
  Mongo.collection (with_collection name docs db) name = docs.
Proof.
  unfold Mongo.collection, with_collection. by rewrite lookup_insert_eq.
Qed.

(** The empty query document matches every document, and a query on one
    field is the test of that field. *)
Lemma matches_empty (d : document) : Mongo.matches ∅ d = true.
Proof.
  unfold Mongo.matches. apply bool_decide_eq_true. apply map_Forall_empty.
Qed.

Lemma matches_singleton (key s : string) (d : document) :
  Mongo.matches (<[key := s]> ∅) d = Mongo.field_is_str (fields d) key s.
Proof.
  unfold Mongo.matches. rewrite insert_empty.
  destruct (Mongo.field_is_str (fields d) key s) eqn:E.
  - apply bool_decide_eq_true. apply map_Forall_singleton. by rewrite E.
  - apply bool_decide_eq_false. rewrite map_Forall_singleton, E. intros [].
Qed.

End store.

(** ** Identifiers in strings *)

Section identifiers.

Implicit Types (c : ascii) (l k : list ascii) (s : string) (oid : ObjectId).

Lemma length_list_ascii_of_string s :
  length (String.list_ascii_of_string s) = String.length s.
Proof. induction s as [|c s IH]; simpl; [done|]. by rewrite IH. Qed.

(** A hexadecimal digit is not whitespace. *)
Lemma hex_lower_not_space c c' : hex_lower c = Some c' → is_space c = false.
Proof.
  unfold hex_lower, is_space. cbv zeta. set (n := N_of_ascii c).
  destruct ((48 <=? n) && (n <=? 57) || (97 <=? n) && (n <=? 102))%N eqn:Hlow.
  - intros _. apply orb_true_iff in Hlow.
    apply orb_false_iff. split; [apply andb_false_iff|apply N.eqb_neq];
      destruct Hlow as [H|H]; apply andb_true_iff in H as [H1 H2];
      apply N.leb_le in H1, H2; try lia; right; apply N.leb_gt; lia.
  - destruct ((65 <=? n) && (n <=? 70))%N eqn:Hup; [|done].
    intros _. apply andb_true_iff in Hup as [H1 H2]. apply N.leb_le in H1, H2.
    apply orb_false_iff. split; [apply andb_false_iff; right; apply N.leb_gt
                                |apply N.eqb_neq]; lia.
Qed.

(** [fromhex], step by step. *)
Lemma fromhex_space c l : is_space c = true → fromhex (c :: l) = fromhex l.
Proof. simpl. by intros ->. Qed.

Lemma fromhex_byte c c' l :
  is_space c = false →
  fromhex (c :: c' :: l)
  = match hex_lower c, hex_lower c', fromhex l with
    | Some top, Some bot, Some rest => Some (top :: bot :: rest)
    | _, _, _ => None
    end.
Proof. simpl. by intros ->. Qed.

(** Each byte is read in two characters or more. *)
Lemma fromhex_length l k : fromhex l = Some k → length k ≤ length l.
Proof.
  remember (length l) as n eqn:Hn. revert l k Hn.
  induction (lt_wf n) as [n _ IH]. intros l k -> Hk.
  destruct l as [|c l]; [by injection Hk as <-|].
  destruct (is_space c) eqn:Hc.
  - rewrite fromhex_space in Hk by done.
    specialize (IH (length l) ltac:(simpl; lia) l k eq_refl Hk). simpl. lia.
  - destruct l as [|c' l]; [by simpl in Hk; rewrite Hc in Hk|].
    rewrite fromhex_byte in Hk by done.
    destruct (hex_lower c), (hex_lower c'), (fromhex l) as [rest|] eqn:Hrest;
      try done. injection Hk as <-.
    specialize (IH (length l) ltac:(simpl; lia) l rest eq_refl Hrest). simpl. lia.
Qed.

(** As many digits as characters: every character was a digit. *)
Lemma fromhex_full l k :
  fromhex l = Some k → length k = length l → mapM hex_lower l = Some k.
Proof.
  remember (length l) as n eqn:Hn. revert l k Hn.
  induction (lt_wf n) as [n _ IH]. intros l k -> Hk Hlen.
  destruct l as [|c l]; [by injection Hk as <-|].
  destruct (is_space c) eqn:Hc.
  - rewrite fromhex_space in Hk by done.
    apply fromhex_length in Hk. simpl in Hlen. lia.
  - destruct l as [|c' l]; [by simpl in Hk; rewrite Hc in Hk|].
    rewrite fromhex_byte in Hk by done.
    destruct (hex_lower c) as [top|] eqn:Htop; [|done].
    destruct (hex_lower c') as [bot|] eqn:Hbot; [|done].
    destruct (fromhex l) as [rest|] eqn:Hrest; [|done].
    injection Hk as <-. simpl in Hlen.
    cbn [mapM]. rewrite Htop. simpl. rewrite Hbot. simpl.
    by rewrite (IH (length l) ltac:(simpl; lia) l rest eq_refl Hrest ltac:(lia)).
Qed.

(** An even number of digits, and nothing else, is read as it stands. *)
Lemma mapM_hex_lower_fromhex (n : nat) l k :
  length l = 2 * n → mapM hex_lower l = Some k → fromhex l = Some k.
Proof.
  revert l k. induction n as [|n IH]; intros l k Hlen.
  - destruct l; [|done]. by intros [= <-].
  - destruct l as [|c [|c' l]]; simpl in Hlen; try lia.
    cbn [mapM]. destruct (hex_lower c) as [top|] eqn:Htop; [|done].
    destruct (hex_lower c') as [bot|] eqn:Hbot; [|done].
    destruct (mapM hex_lower l) as [rest|] eqn:Hrest; [|done].
    intros [= <-]. rewrite fromhex_byte by (by eapply hex_lower_not_space).
    by rewrite Htop, Hbot, (IH l rest ltac:(lia) Hrest).
Qed.

(** What the server reads as an identifier, [ObjectId] reads as the same
    one. *)
Lemma ObjectId_of_hex_of_str s oid :
  Mongo.ObjectId_of_hex s = Some oid → ObjectId_of_str s = Some oid.
Proof.
  unfold Mongo.ObjectId_of_hex, ObjectId_of_str. case_bool_decide as Hlen; [|done].
  destruct (mapM _ _) as [hex|] eqn:Hhex; [|done]. simpl. intros [= <-].
  rewrite (mapM_hex_lower_fromhex 12 _ hex); [done| |done].
  by rewrite length_list_ascii_of_string.
Qed.

(** An identifier of twelve bytes that [ObjectId] reads in a string is the
    one the server reads in it. *)
Lemma ObjectId_of_str_twelve s oid :
  ObjectId_of_str s = Some oid → String.length (str oid) = 24 →
  Mongo.ObjectId_of_hex s = Some oid.
Proof.
  unfold Mongo.ObjectId_of_hex, ObjectId_of_str. case_bool_decide as Hlen; [|done].
  destruct (fromhex _) as [hex|] eqn:Hhex; [|done]. simpl. intros [= <-]. simpl.
  rewrite <- length_list_ascii_of_string, String.list_ascii_of_string_of_list_ascii.
  intros Hfull. rewrite (fromhex_full _ hex Hhex); [done|].
  by rewrite length_list_ascii_of_string, Hfull.
Qed.

Lemma ObjectId_of_str_length s oid :
  ObjectId_of_str s = Some oid → String.length s = 24.
Proof. unfold ObjectId_of_str. by case_bool_decide. Qed.

(** The string of an identifier that resolves is converted by
    [$toObjectId] to that identifier. *)
Lemma toObjectId_to_object_id (cid : string) oid :
  to_object_id cid = inr oid → String.length (str oid) = 24 →
  Mongo.toObjectId (Some (VStr cid)) = inr (Some oid).
Proof.
  unfold to_object_id, Mongo.toObjectId.
  destruct (ObjectId_of_str cid) as [oid'|] eqn:Hparse; [|done].
  intros [= ->] Hlen. by rewrite (ObjectId_of_str_twelve _ _ Hparse Hlen).
Qed.

End identifiers.

(** ** Running the handlers *)

Section handlers.

Implicit Types (db : database) (oid : ObjectId).

(** [create_result], check by check. *)
Lemma create_result_run new_id (result : ResultCreate) db :
  create_result new_id result db =
    match to_object_id (student_id result) with
    | inl e => (inl e, db)
    | inr s =>
        if bool_decide (length (Mongo.by_id s (Mongo.collection db "student")) = 0)
        then (inl (NotFoundError "Student"), db)
        else
          match to_object_id (course_id result) with
          | inl e => (inl e, db)
          | inr c =>
              if bool_decide (length (Mongo.by_id c (Mongo.collection db "course")) = 0)
              then (inl (NotFoundError "Course"), db)
              else
                let g := calculate_grade (marks result) in
                match schemas.Result_new (student_id result) (course_id result)
                        (marks result) (Some g.1) (Some g.2) with
                | inl e => (inl e, db)
                | inr payload =>
                    (inr (list_to_map [ ("id", VStr (str new_id));
                                        ("grade", VStr g.1);
                                        ("grade_point", VFloat g.2) ]),
                     with_collection "result"
                       (Mongo.collection db "result"
                          ++ [Doc new_id (schemas.model_dump payload)]) db)
                end
          end
    end.
Proof.
  unfold create_result, mbind, M_bind, lift, raise, Mongo.count_documents.
  destruct (to_object_id (student_id result)) as [e|s]; [done|].
  case_bool_decide; [done|].
  destruct (to_object_id (course_id result)) as [e|c]; [done|].
  case_bool_decide; [done|].
  destruct (calculate_grade (marks result)) as [grade grade_point]; simpl.
  destruct (schemas.Result_new _ _ _ _ _) as [e|payload]; done.
Qed.

(** [get_transcript], step by step. *)
Lemma get_transcript_run (student_id : string) db :
  get_transcript student_id db =
    match to_object_id student_id with
    | inl e => (inl e, db)
    | inr oid =>
        match head (Mongo.by_id oid (Mongo.collection db "student")) with
        | None => (inl (NotFoundError "Student"), db)
        | Some student =>
            match pipeline student_id db with
            | inl e => (inl e, db)
            | inr records =>
                match for_each transcript_row records (0%float, 0%float, []) with
                | inl e => (inl e, db)
                | inr (total_points, total_credits, transcript_items) =>
                    (inr {| student := student_summary student;
                            gpa := if (0 <? total_credits)%float
                                   then Python.round2 (total_points / total_credits)
                                   else 0%float;
                            results := transcript_items |}, db)
                end
            end
        end
    end.
Proof.
  unfold get_transcript, mbind, M_bind, lift, raise, Mongo.find_one, aggregate.
  destruct (to_object_id student_id) as [e|oid]; [done|].
  destruct (head _) as [student|]; [|done].
  destruct (pipeline student_id db) as [e|records]; [done|].
  destruct (for_each _ _ _) as [e|[[tp tc] items]]; done.
Qed.

End handlers.

(** ** What the transcript steps can raise *)

Section raised.

Lemma toObjectId_raises (v : option value) (e : exn) :
  Mongo.toObjectId v = inl e → e = OperationFailure.
Proof.
  destruct v as [[| | |s]|]; simpl; try congruence.
  destruct (Mongo.ObjectId_of_hex s); congruence.
Qed.

Lemma addFields_raises (key : string) (docs : list document) (e : exn) :
  Mongo.addFields_toObjectId key docs = inl e → e = OperationFailure.
Proof.
  unfold Mongo.addFields_toObjectId.
  induction docs as [|d docs IH]; simpl; [done|].
  unfold mbind, exn_bind at 1.
  destruct (Mongo.toObjectId (fields d !! key)) as [e'|oid] eqn:E; simpl.
  - intros [= <-]. by eapply toObjectId_raises.
  - unfold mbind, exn_bind at 1.
    destruct (mapM _ docs) as [e'|rest]; simpl; [|done].
    intros [= <-]. by apply IH.
Qed.

(** The aggregation fails only as a rejected command. *)
Lemma pipeline_raises (student_id : string) (db : database) (e : exn) :
  pipeline student_id db = inl e → e = OperationFailure.
Proof.
  unfold pipeline, mbind, exn_bind.
  destruct (Mongo.addFields_toObjectId _ _) as [e'|docs] eqn:E; [|done].
  intros [= <-]. by eapply addFields_raises.
Qed.

Lemma as_float_raises (z : Z) (e : exn) : as_float z = inl e → e = OverflowError.
Proof. unfold as_float. destruct (is_infinity _); congruence. Qed.

Lemma mul_raises (a b : value) (e : exn) :
  mul a b = inl e → e = TypeError ∨ e = OverflowError.
Proof.
  destruct a as [|x|x|x], b as [|y|y|y]; simpl; try (intros [= <-]; by left);
    unfold mbind, exn_bind;
    destruct (as_float _) as [e'|f] eqn:E; try done;
    intros [= <-]; right; by eapply as_float_raises.
Qed.

Lemma add_to_raises (acc : float) (b : value) (e : exn) :
  add_to acc b = inl e → e = TypeError ∨ e = OverflowError.
Proof.
  destruct b as [|y|y|y]; simpl; try (intros [= <-]; by left).
  unfold mbind, exn_bind. destruct (as_float _) as [e'|f] eqn:E; [|done].
  intros [= <-]; right; by eapply as_float_raises.
Qed.

Lemma transcript_row_raises acc (r : document * document) (e : exn) :
  transcript_row acc r = inl e → e = TypeError ∨ e = OverflowError.
Proof.
  destruct acc as [[tp tc] items]. unfold transcript_row, mbind, exn_bind.
  destruct (mul _ _) as [e'|p] eqn:Ep; [intros [= <-]; by eapply mul_raises|].
  destruct (add_to tp p) as [e'|tp'] eqn:Etp; [intros [= <-]; by eapply add_to_raises|].
  destruct (add_to tc _) as [e'|tc'] eqn:Etc; [intros [= <-]; by eapply add_to_raises|].
  done.
Qed.

(** The loop over the records fails only on an operand that is not a
    number a float can take. *)
Lemma transcript_loop_raises (records : list (document * document)) acc (e : exn) :
  for_each transcript_row records acc = inl e → e = TypeError ∨ e = OverflowError.
Proof.
  revert acc. induction records as [|r records IH]; intros acc; simpl; [done|].
  unfold mbind, exn_bind.
  destruct (transcript_row acc r) as [e'|acc'] eqn:E.
  - intros [= <-]. by eapply transcript_row_raises.
  - apply IH.
Qed.

End raised.

(** ** The Transcript Aggregator: the student check *)

Section student_check.

Implicit Types (db : database) (oid : ObjectId).

Lemma field_is_str_true (d : dict) (key s : string) :
  Mongo.field_is_str d key s = true ↔ d !! key = Some (VStr s).
Proof.
  unfold Mongo.field_is_str. destruct (d !! key) as [[| | |s']|]; try (split; done).
  rewrite bool_decide_eq_true. split; congruence.
Qed.

(** No stored result names the student: the [$match] stage yields nothing. *)
Lemma match_stage_nil (key s : string) (docs : list document) :
  Forall (λ d, fields d !! key ≠ Some (VStr s)) docs →
  Mongo.match_stage key s docs = [].
Proof.
  unfold Mongo.match_stage. induction 1 as [|d docs Hd _ IH]; [done|].
  rewrite filter_cons_False; [done|].
  intros Htrue. apply Hd, field_is_str_true. by destruct (Mongo.field_is_str _ _ _).
Qed.

Lemma resolves_count db name oid :
  length (Mongo.by_id oid (Mongo.collection db name)) ≠ 0 → resolves db name oid.
Proof.
  intros Hcount. destruct (head (Mongo.by_id oid (Mongo.collection db name))) eqn:E.
  - by eapply head_by_id_Some.
  - destruct (Mongo.by_id oid _); simplify_eq/=.
Qed.

Lemma resolves_with_collection_ne name name' docs db oid :
  name ≠ name' →
  resolves (with_collection name docs db) name' oid ↔ resolves db name' oid.
Proof.
  intros Hne. unfold resolves. by rewrite collection_with_collection_ne.
Qed.

(** A student that does not resolve: not found, whatever else is stored. *)
Lemma get_transcript_unknown (student_id : string) db oid :
  to_object_id student_id = inr oid → ¬ resolves db "student" oid →
  get_transcript student_id db = (inl (NotFoundError "Student"), db).
Proof.
  intros Hid Hno. rewrite get_transcript_run, Hid.
  apply head_by_id_None in Hno. by rewrite Hno.
Qed.

(** A transcript is only returned for a student that resolves. *)
Lemma get_transcript_returns (student_id : string) db (t : Transcript) :
  (get_transcript student_id db).1 = inr t →
  ∃ oid, to_object_id student_id = inr oid ∧ resolves db "student" oid.
Proof.
  rewrite get_transcript_run.
  destruct (to_object_id student_id) as [e|oid]; [done|].
  destruct (head _) as [student|] eqn:E; [|done].
  intros _. exists oid. split; [done|]. by eapply head_by_id_Some.
Qed.

End student_check.

(** C3.  [get_transcript] on a well-formed identifier fails with
    "Student not found" exactly when the identifier resolves to no student;
    the check comes before any result lookup, as the answer is the same
    whatever the result and course collections hold; an existing student
    that no result names gets a transcript with GPA 0.0 and no line item;
    and a transcript is never returned for an identifier that does not
    resolve. *)
Theorem get_transcript_student_check (student_id : string) (db : database) :
  (∀ oid, to_object_id student_id = inr oid →
     (get_transcript student_id db).1 = inl (NotFoundError "Student")
     ↔ ¬ resolves db "student" oid)
  ∧ (∀ oid results courses,
       to_object_id student_id = inr oid → ¬ resolves db "student" oid →
       let db' := with_collection "result" results
                    (with_collection "course" courses db) in
       get_transcript student_id db' = (inl (NotFoundError "Student"), db'))
  ∧ (∀ oid,
       to_object_id student_id = inr oid → resolves db "student" oid →
       Forall (λ d, fields d !! "student_id" ≠ Some (VStr student_id))
         (Mongo.collection db "result") →
       ∃ t, (get_transcript student_id db).1 = inr t
            ∧ gpa t = 0%float ∧ results t = [])
  ∧ (∀ t, (get_transcript student_id db).1 = inr t →
       ∃ oid, to_object_id student_id = inr oid ∧ resolves db "student" oid).
Proof.
  split; [|split; [|split]].
  - intros oid Hid. split.
    + intros Hfail Hres. revert Hfail. rewrite get_transcript_run, Hid.
      destruct (head _) as [student|] eqn:E;
        [|by apply head_by_id_None in E].
      destruct (pipeline student_id db) as [e|records] eqn:Ep; simpl.
      { apply pipeline_raises in Ep as ->. done. }
      destruct (for_each _ _ _) as [e|[[tp tc] items]] eqn:El; simpl; [|done].
      apply transcript_loop_raises in El as [-> | ->]; done.
    + intros Hno. by rewrite (get_transcript_unknown _ _ _ Hid Hno).
  - intros oid results courses Hid Hno db'. apply (get_transcript_unknown _ _ oid Hid).
    subst db'. by rewrite !resolves_with_collection_ne.
  - intros oid Hid Hres Hnone. rewrite get_transcript_run, Hid.
    destruct (head _) as [student|] eqn:E;
      [|by apply head_by_id_None in E].
    unfold pipeline. rewrite (match_stage_nil _ _ _ Hnone). simpl.
    eexists. repeat split; reflexivity.
  - apply get_transcript_returns.
Qed.

(** The student of the small database, before any result is recorded. *)
Lemma get_transcript_student_check_ada :
  ∃ t, (get_transcript (str Demo.ada) Demo.db).1 = inr t
       ∧ gpa t = 0%float ∧ results t = [].
Proof.
  destruct (get_transcript_student_check (str Demo.ada) Demo.db) as (_ & _ & Hnone & _).
  apply (Hnone Demo.ada).
  - reflexivity.
  - apply resolves_count. vm_compute. discriminate.
  - exact (Forall_nil_2 _).
Defined.

(** ** The Transcript Aggregator only reads *)

(** C8.  [get_transcript] writes to no collection: it leaves the database
    as it found it, so a second call on the same identifier, with nothing
    written in between, returns what the first returned. *)
Theorem get_transcript_read_only (student_id : string) (db : database) :
  let '(r1, db1) := get_transcript student_id db in
  let '(r2, db2) := get_transcript student_id db1 in
  db1 = db ∧ db2 = db ∧ r2 = r1.
Proof.
  assert (∀ db0, (get_transcript student_id db0).2 = db0) as Hsame.
  { intros db0. rewrite get_transcript_run.
    destruct (to_object_id student_id) as [e|oid]; [done|].
    destruct (head _) as [student|]; [|done].
    destruct (pipeline student_id db0) as [e|records]; [done|].
    destruct (for_each _ _ _) as [e|[[tp tc] items]]; done. }
  destruct (get_transcript student_id db) as [r1 db1] eqn:E1.
  assert (db1 = db) as -> by (by rewrite <- (Hsame db), E1).
  rewrite E1. done.
Qed.

(** ** The Result Recorder: the order of its checks *)

Section recorder.

Implicit Types (db : database) (oid : ObjectId) (result : ResultCreate).

Lemma to_object_id_malformed (id_str : string) :
  ObjectId_of_str id_str = None → to_object_id id_str = inl InvalidIdFormat.
Proof. unfold to_object_id. by intros ->. Qed.

(** Out-of-range marks are refused by the constructor of the model. *)
Lemma Result_new_out_of_range (s c : string) (marks : float) g gp :
  out_of_range marks = true → schemas.Result_new s c marks g gp = inl ValidationError.
Proof.
  unfold out_of_range, schemas.Result_new. rewrite orb_comm. by intros ->.
Qed.

(** Whenever [create_result] raises, the database is as before. *)
Lemma create_result_raise_no_write new_id result db (e : exn) db' :
  create_result new_id result db = (inl e, db') → db' = db.
Proof.
  rewrite create_result_run.
  destruct (to_object_id (student_id result)) as [?|s]; [congruence|].
  case_bool_decide; [congruence|].
  destruct (to_object_id (course_id result)) as [?|c]; [congruence|].
  case_bool_decide; [congruence|].
  simpl. destruct (schemas.Result_new _ _ _ _ _); congruence.
Qed.

Lemma create_result_student_unknown new_id result db s :
  to_object_id (student_id result) = inr s → ¬ resolves db "student" s →
  create_result new_id result db = (inl (NotFoundError "Student"), db).
Proof.
  intros Hs Hno. rewrite create_result_run, Hs.
  apply count_zero_iff in Hno. by rewrite bool_decide_eq_true_2.
Qed.

Lemma create_result_course_unknown new_id result db s c :
  to_object_id (student_id result) = inr s → resolves db "student" s →
  to_object_id (course_id result) = inr c → ¬ resolves db "course" c →
  create_result new_id result db = (inl (NotFoundError "Course"), db).
Proof.
  intros Hs Hres Hc Hno. rewrite create_result_run, Hs, Hc.
  rewrite bool_decide_eq_false_2 by (rewrite count_zero_iff; tauto).
  apply count_zero_iff in Hno. by rewrite bool_decide_eq_true_2.
Qed.

Lemma create_result_course_malformed new_id result db s :
  to_object_id (student_id result) = inr s → resolves db "student" s →
  ObjectId_of_str (course_id result) = None →
  create_result new_id result db = (inl InvalidIdFormat, db).
Proof.
  intros Hs Hres Hc. rewrite create_result_run, Hs, (to_object_id_malformed _ Hc).
  by rewrite bool_decide_eq_false_2 by (rewrite count_zero_iff; tauto).
Qed.

(** Past its checks, [create_result] appends one document to the result
    collection and returns. *)
Lemma create_result_recorded new_id result db s c :
  to_object_id (student_id result) = inr s → resolves db "student" s →
  to_object_id (course_id result) = inr c → resolves db "course" c →
  out_of_range (marks result) = false →
  (create_result new_id result db).2
  = with_collection "result"
      (Mongo.collection db "result" ++ [result_document new_id result]) db
  ∧ ∃ response, (create_result new_id result db).1 = inr response.
Proof.
  intros Hs Hsres Hc Hcres Hmarks. rewrite create_result_run, Hs, Hc.
  rewrite !bool_decide_eq_false_2 by (rewrite count_zero_iff; tauto).
  cbv zeta. unfold schemas.Result_new. unfold out_of_range in Hmarks.
  rewrite orb_comm in Hmarks. rewrite Hmarks. simpl. split; [done|by eexists].
Qed.

End recorder.

(** C6.  With well-formed identifiers, and whatever the marks,
    [create_result] fails with "Student not found" when the student
    identifier resolves to no student, whether the course exists or not,
    and with "Course not found" when the student exists and the course
    identifier resolves to no course; in both cases the database is left as
    it was. *)
Theorem create_result_not_found (new_id : ObjectId) (result : ResultCreate)
    (db : database) (s c : ObjectId) :
  to_object_id (student_id result) = inr s →
  to_object_id (course_id result) = inr c →
  (¬ resolves db "student" s →
     create_result new_id result db = (inl (NotFoundError "Student"), db))
  ∧ (resolves db "student" s → ¬ resolves db "course" c →
     create_result new_id result db = (inl (NotFoundError "Course"), db)).
Proof.
  intros Hs Hc. split.
  - intros Hno. by eapply create_result_student_unknown.
  - intros Hres Hno. by eapply create_result_course_unknown.
Qed.

(** In the small database: marks in range for a course that is not there. *)
Lemma create_result_not_found_course :
  create_result (Oid "ccccccccccccccccccccccc1") (Demo.request Demo.nobody 75) Demo.db
  = (inl (NotFoundError "Course"), Demo.db).
Proof.
  refine (proj2 (create_result_not_found _ (Demo.request Demo.nobody 75) Demo.db
                   Demo.ada Demo.nobody _ _) _ _).
  - reflexivity.
  - reflexivity.
  - apply resolves_count. vm_compute. discriminate.
  - apply count_zero_iff. reflexivity.
Defined.

(** C5, as the claim states it, fails: with marks of 101 and a student
    identifier that resolves to no student, the call reports the missing
    student and not the marks. *)
Lemma out_of_range_marks_student_not_found :
  let result := {| student_id := str Demo.nobody;
                   course_id := str Demo.maths;
                   marks := 101 |} in
  out_of_range (marks result) = true
  ∧ (create_result (Oid "ccccccccccccccccccccccc1") result Demo.db).1
    = inl (NotFoundError "Student")
  ∧ (create_result (Oid "ccccccccccccccccccccccc1") result Demo.db).1
    ≠ inl ValidationError.
Proof. repeat split. discriminate. Qed.

(** C5, amended.  The range of the marks is checked last, when the
    [Result] model is built.  A call with marks below 0 or above 100 always
    fails and writes nothing; it fails with [ValidationError] exactly when
    both identifiers are well-formed and resolve, and with the error of the
    identifier and existence checks ("Invalid id format", "Student not
    found", "Course not found") otherwise. *)
Theorem create_result_marks_out_of_range (new_id : ObjectId) (result : ResultCreate)
    (db : database) :
  out_of_range (marks result) = true →
  (∃ e, create_result new_id result db = (inl e, db)
        ∧ (e = InvalidIdFormat ∨ e = NotFoundError "Student"
           ∨ e = NotFoundError "Course" ∨ e = ValidationError))
  ∧ ((create_result new_id result db).1 = inl ValidationError
     ↔ ∃ s c, to_object_id (student_id result) = inr s ∧ resolves db "student" s
              ∧ to_object_id (course_id result) = inr c ∧ resolves db "course" c).
Proof.
  intros Hmarks. rewrite create_result_run.
  destruct (to_object_id (student_id result)) as [e|s] eqn:Hs.
  { unfold to_object_id in Hs. destruct (ObjectId_of_str _); simplify_eq/=.
    split; [eexists; split; [done|]; by left|].
    split; [intros [=]|by intros (? & ? & ? & _)]. }
  case_bool_decide as Hsres.
  { split; [eexists; split; [done|]; right; by left|]. split; [done|].
    intros (s' & c' & [= <-] & Hres & _). by apply count_zero_iff in Hsres. }
  destruct (to_object_id (course_id result)) as [e|c] eqn:Hc.
  { unfold to_object_id in Hc. destruct (ObjectId_of_str _); simplify_eq/=.
    split; [eexists; split; [done|]; by left|].
    split; [intros [=]|by intros (? & ? & ? & _ & ? & _)]. }
  case_bool_decide as Hcres.
  { split; [eexists; split; [done|]; right; right; by left|]. split; [done|].
    intros (s' & c' & _ & _ & [= <-] & Hres). by apply count_zero_iff in Hcres. }
  simpl. rewrite Result_new_out_of_range by done.
  split; [eexists; split; [done|]; by do 3 right|]. split; [|done].
  intros _. exists s, c. repeat split; by apply resolves_count.
Qed.

(** In the small database: 101 marks for an existing student and course. *)
Lemma create_result_marks_out_of_range_101 :
  ∃ e, create_result (Oid "ccccccccccccccccccccccc1") (Demo.request Demo.maths 101) Demo.db
       = (inl e, Demo.db)
       ∧ (e = InvalidIdFormat ∨ e = NotFoundError "Student"
          ∨ e = NotFoundError "Course" ∨ e = ValidationError).
Proof.
  refine (proj1 (create_result_marks_out_of_range _ (Demo.request Demo.maths 101)
                   Demo.db _)).
  reflexivity.
Defined.

(** ** Malformed identifiers *)

(** C9, as the claim states it, fails: a malformed course identifier sent
    along with a well-formed student identifier that resolves to no student
    is answered "Student not found", not "Invalid id format". *)
Lemma malformed_course_id_student_not_found :
  let result := {| student_id := str Demo.nobody;
                   course_id := "not-an-id";
                   marks := 50 |} in
  ObjectId_of_str (course_id result) = None
  ∧ (create_result (Oid "ccccccccccccccccccccccc1") result Demo.db).1
    = inl (NotFoundError "Student")
  ∧ (create_result (Oid "ccccccccccccccccccccccc1") result Demo.db).1
    ≠ inl InvalidIdFormat.
Proof. repeat split. discriminate. Qed.

(** C9, amended.  An identifier is rejected with "Invalid id format" at
    the point where the handler converts it, and nothing is written:
    [get_transcript] and [create_result] reject a malformed student
    identifier at once; [create_result] rejects a malformed course
    identifier once the student check has passed, and answers "Student not
    found" for a well-formed student identifier that resolves to no
    student, whatever the course identifier; a call with a malformed course
    identifier fails, without a write, in every case.  Malformed is what
    [ObjectId] refuses: every string that has not 24 characters is, and 24
    characters that are hexadecimal digits with whitespace after them are
    not, so that such a string is not answered "Invalid id format". *)
Theorem malformed_id_rejected (new_id : ObjectId) (result : ResultCreate)
    (id_str : string) (db : database) :
  (ObjectId_of_str id_str = None →
     get_transcript id_str db = (inl InvalidIdFormat, db))
  ∧ (ObjectId_of_str (student_id result) = None →
     create_result new_id result db = (inl InvalidIdFormat, db))
  ∧ (∀ s, to_object_id (student_id result) = inr s → resolves db "student" s →
     ObjectId_of_str (course_id result) = None →
     create_result new_id result db = (inl InvalidIdFormat, db))
  ∧ (∀ s, to_object_id (student_id result) = inr s → ¬ resolves db "student" s →
     create_result new_id result db = (inl (NotFoundError "Student"), db))
  ∧ (ObjectId_of_str (course_id result) = None →
     ∃ e, create_result new_id result db = (inl e, db))
  ∧ (String.length id_str ≠ 24 → ObjectId_of_str id_str = None)
  ∧ to_object_id "aaaaaaaaaaaaaaaaaaaaaa  " = inr (Oid "aaaaaaaaaaaaaaaaaaaaaa").
Proof.
  split; [|split; [|split; [|split; [|split; [|split]]]]].
  - intros Hbad. by rewrite get_transcript_run, (to_object_id_malformed _ Hbad).
  - intros Hbad. by rewrite create_result_run, (to_object_id_malformed _ Hbad).
  - intros s Hs Hres Hbad. by eapply create_result_course_malformed.
  - intros s Hs Hno. by eapply create_result_student_unknown.
  - intros Hbad. rewrite create_result_run, (to_object_id_malformed _ Hbad).
    destruct (to_object_id (student_id result)); [by eexists|].
    case_bool_decide; by eexists.
  - intros Hlen. unfold ObjectId_of_str. by rewrite bool_decide_eq_false_2.
  - reflexivity.
Qed.

(** In the small database: a transcript asked for under a malformed
    identifier. *)
Lemma malformed_id_rejected_transcript :
  get_transcript "not-an-id" Demo.db = (inl InvalidIdFormat, Demo.db).
Proof.
  refine (proj1 (malformed_id_rejected Demo.ada (Demo.request Demo.maths 50)
                   "not-an-id" Demo.db) _).
  reflexivity.
Defined.

(** ** Listing results *)

Section listing.

Lemma find_all (docs : list document) :
  filter (λ d, Mongo.matches ∅ d) docs = docs.
Proof.
  induction docs as [|d docs IH]; [done|].
  rewrite filter_cons_True by (by rewrite matches_empty). by rewrite IH.
Qed.

Lemma find_by_field (key s : string) (docs : list document) :
  filter (λ d, Mongo.matches (<[key := s]> ∅) d) docs = Mongo.match_stage key s docs.
Proof.
  unfold Mongo.match_stage. induction docs as [|d docs IH]; [done|].
  by rewrite !filter_cons, matches_singleton, IH.
Qed.

End listing.

(** C10.  [list_results] filters only on a non-empty string: with the
    empty string it returns what it returns with no filter, every result
    document of the collection; with any other string it returns the
    documents whose [student_id] is that string. *)
Theorem list_results_empty_filter (db : database) :
  list_results (Some "") db = list_results None db
  ∧ list_results None db = (inr (with_str_id <$> Mongo.collection db "result"), db)
  ∧ (∀ s, s ≠ "" →
       list_results (Some s) db
       = (inr (with_str_id <$> Mongo.match_stage "student_id" s
                                 (Mongo.collection db "result")), db)).
Proof.
  split; [reflexivity|]. split.
  - unfold list_results, get_documents, Mongo.find, mbind, M_bind; simpl.
    by rewrite find_all.
  - intros s Hs.
    unfold list_results, get_documents, Mongo.find, mbind, M_bind; simpl.
    rewrite bool_decide_eq_false_2 by done. by rewrite find_by_field.
Qed.

(** After the two results of the small database are recorded, the empty
    string lists both of them, and the identifier of a student without
    results lists none. *)
Lemma list_results_empty_filter_two :
  (∃ d1 d2, (list_results (Some "") Demo.db_two).1 = inr [d1; d2])
  ∧ (list_results (Some (str Demo.nobody)) Demo.db_two).1 = inr [].
Proof.
  destruct (list_results_empty_filter Demo.db_two) as (Hempty & Hnone & Hsome).
  rewrite Hempty, Hnone, (Hsome (str Demo.nobody)) by discriminate.
  split; [|reflexivity].
  eexists _, _. vm_compute. reflexivity.
Defined.

(** ** The Transcript Aggregator: the joined records *)

Section join.

Implicit Types (db : database) (courses docs : list document) (d res : document).

Lemma joined_cons courses d docs :
  joined courses (d :: docs)
  = (local ← Mongo.toObjectId (fields d !! "course_id");
     rest ← joined courses docs;
     mret (((λ c, (d, c)) <$> Mongo.foreign_matches courses local) ++ rest)).
Proof.
  unfold joined, Mongo.addFields_toObjectId. cbn [mapM].
  destruct (Mongo.toObjectId _) as [e|local]; [done|]. rewrite !bind_inr.
  destruct (mapM _ docs) as [e|rest]; [done|]. by rewrite !bind_inr.
Qed.

Lemma pipeline_joined (student_id : string) db :
  pipeline student_id db
  = joined (Mongo.collection db "course")
      (Mongo.match_stage "student_id" student_id (Mongo.collection db "result")).
Proof. reflexivity. Qed.

(** A matched document whose course reference resolves to no course adds
    nothing to the joined records and raises nothing. *)
Lemma joined_drop courses (before after : list document) res :
  (∃ local, Mongo.toObjectId (fields res !! "course_id") = inr local
            ∧ Mongo.foreign_matches courses local = []) →
  joined courses (before ++ res :: after) = joined courses (before ++ after).
Proof.
  intros (local & Hlocal & Hnone).
  induction before as [|d before IH]; simpl.
  - rewrite joined_cons, Hlocal, bind_inr, Hnone.
    destruct (joined courses after); done.
  - by rewrite !joined_cons, IH.
Qed.

Lemma dangling_foreign_matches db res :
  dangling db res →
  ∃ local, Mongo.toObjectId (fields res !! "course_id") = inr local
           ∧ Mongo.foreign_matches (Mongo.collection db "course") local = [].
Proof.
  unfold dangling. destruct (Mongo.toObjectId _) as [e|[oid|]]; [done| |].
  - intros Hno. exists (Some oid). split; [done|]. simpl.
    apply by_id_nil_iff. exact Hno.
  - intros _. by exists None.
Qed.

End join.

(** ** The Transcript Aggregator: the GPA *)

Section gpa.

Implicit Types (r : document * document) (records : list (document * document)).

(** What the loop reads from a joined record. *)
Lemma transcript_item_credits r :
  get (transcript_item r) "credits" = get_default (fields r.2) "credits" (VInt 0).
Proof. by destruct r. Qed.

Lemma transcript_item_grade_point r :
  get (transcript_item r) "grade_point"
  = get_default (fields r.1) "grade_point" (VFloat 0).
Proof. by destruct r. Qed.

(** The body of the loop reads what it writes in the line item. *)
Lemma transcript_row_item (tp tc : float) (items : list dict) r :
  transcript_row (tp, tc, items) r
  = (points ← mul (get (transcript_item r) "grade_point")
                  (get (transcript_item r) "credits");
     tp ← add_to tp points;
     tc ← add_to tc (get (transcript_item r) "credits");
     mret (tp, tc, items ++ [transcript_item r])).
Proof.
  unfold transcript_row.
  by rewrite <- transcript_item_credits, <- transcript_item_grade_point.
Qed.

(** The loop, from any accumulators: it appends one line item per record,
    and its two running sums are the sums of the products and of the
    credits of those records. *)
Lemma transcript_loop records (tp0 tc0 : float) (items0 : list dict)
    (tp tc : float) (items : list dict) :
  for_each transcript_row records (tp0, tc0, items0) = inr (tp, tc, items) →
  items = items0 ++ (transcript_item <$> records)
  ∧ ∃ points,
      mapM (λ item, mul (get item "grade_point") (get item "credits"))
        (transcript_item <$> records) = inr points
      ∧ for_each add_to points tp0 = inr tp
      ∧ for_each add_to
          ((λ item, get item "credits") <$> (transcript_item <$> records)) tc0
        = inr tc.
Proof.
  revert tp0 tc0 items0.
  induction records as [|r records IH]; intros tp0 tc0 items0.
  - intros [= <- <- <-]. rewrite app_nil_r. split; [done|]. by exists [].
  - rewrite !fmap_cons. cbn [for_each mapM]. rewrite transcript_row_item.
    destruct (mul _ _) as [e|p] eqn:Ep; [done|]. rewrite !bind_inr.
    destruct (add_to tp0 p) as [e|tp1] eqn:Etp; [done|]. rewrite !bind_inr.
    destruct (add_to tc0 _) as [e|tc1] eqn:Etc; [done|]. rewrite !bind_inr.
    intros Hrest. apply IH in Hrest as (-> & points & Hpoints & Htp & Htc).
    split; [by rewrite <- app_assoc|].
    exists (p :: points). rewrite Hpoints, bind_inr. cbn [for_each].
    by rewrite Etp, bind_inr.
Qed.

Lemma match_stage_app (key s : string) (l1 l2 : list document) :
  Mongo.match_stage key s (l1 ++ l2)
  = Mongo.match_stage key s l1 ++ Mongo.match_stage key s l2.
Proof. unfold Mongo.match_stage. apply filter_app. Qed.

End gpa.

Section two_results.

Context (db : database) (sid cid1 cid2 : string) (n1 n2 s c1 c2 : ObjectId).
Context (course1 course2 : document) (x1 x2 : float).

Hypothesis Hs : to_object_id sid = inr s.
Hypothesis Hsres : resolves db "student" s.
Hypothesis Hc1 : to_object_id cid1 = inr c1.
Hypothesis Hc2 : to_object_id cid2 = inr c2.
Hypothesis Hcourse1 : Mongo.by_id c1 (Mongo.collection db "course") = [course1].
Hypothesis Hcourse2 : Mongo.by_id c2 (Mongo.collection db "course") = [course2].
Hypothesis Hcredits1 : fields course1 !! "credits" = Some (VFloat x1).
Hypothesis Hcredits2 : fields course2 !! "credits" = Some (VFloat x2).
Hypothesis Hnone :
  Forall (λ d, fields d !! "student_id" ≠ Some (VStr sid)) (Mongo.collection db "result").

(** The student exists and has no result; the two courses are the only ones
    under their identifiers.  Then 95 and 65 marks recorded in them make a
    transcript of two line items, whose GPA is the rounded quotient of the
    two sums that the loop builds. *)
Lemma record_and_read_gpa :
  ∃ t, (record_and_read sid cid1 cid2 n1 n2 db).1 = inr t
       ∧ length (results t) = 2
       ∧ gpa t = (if 0 <? 0 + x1 + x2
                  then Python.round2 ((0 + 10 * x1 + 7 * x2) / (0 + x1 + x2))
                  else 0)%float.
Proof using All.
  assert (String.length (str c1) = 24) as Hlen1.
  { assert (course1 ∈ Mongo.by_id c1 (Mongo.collection db "course")) as Hin
      by (rewrite Hcourse1; left).
    by apply elem_of_by_id in Hin as (_ & _ & ?). }
  assert (String.length (str c2) = 24) as Hlen2.
  { assert (course2 ∈ Mongo.by_id c2 (Mongo.collection db "course")) as Hin
      by (rewrite Hcourse2; left).
    by apply elem_of_by_id in Hin as (_ & _ & ?). }
  assert (resolves db "course" c1) as Hres1
    by (apply resolves_count; by rewrite Hcourse1).
  assert (resolves db "course" c2) as Hres2
    by (apply resolves_count; by rewrite Hcourse2).
  set (r1 := {| student_id := sid; course_id := cid1; marks := 95 |}).
  set (r2 := {| student_id := sid; course_id := cid2; marks := 65 |}).
  destruct (create_result_recorded n1 r1 db s c1) as (Hdb1 & resp1 & Hresp1); [done..|].
  set (db1 := with_collection "result"
                (Mongo.collection db "result" ++ [result_document n1 r1]) db) in *.
  destruct (create_result_recorded n2 r2 db1 s c2) as (Hdb2 & resp2 & Hresp2);
    [done| by apply resolves_with_collection_ne | done
    | by apply resolves_with_collection_ne | done |].
  set (db2 := with_collection "result"
                (Mongo.collection db1 "result" ++ [result_document n2 r2]) db1) in *.
  unfold record_and_read. fold r1 r2. unfold mbind, M_bind.
  destruct (create_result n1 r1 db) as [o1 db1'] eqn:E1.
  simpl in Hdb1, Hresp1. subst o1 db1'.
  destruct (create_result n2 r2 db1) as [o2 db2'] eqn:E2.
  simpl in Hdb2, Hresp2. subst o2 db2'.
  rewrite get_transcript_run, Hs.
  assert (Mongo.collection db2 "student" = Mongo.collection db "student") as ->
    by (unfold db2, db1; by rewrite !collection_with_collection_ne).
  destruct (head _) as [student|] eqn:Hhead; [|by apply head_by_id_None in Hhead].
  rewrite pipeline_joined.
  assert (Mongo.collection db2 "course" = Mongo.collection db "course") as ->
    by (unfold db2, db1; by rewrite !collection_with_collection_ne).
  assert (Mongo.collection db2 "result"
          = Mongo.collection db "result"
              ++ [result_document n1 r1] ++ [result_document n2 r2]) as ->
    by (unfold db2, db1; rewrite !collection_with_collection; by rewrite <- app_assoc).
  assert (∀ n (r : ResultCreate), student_id r = sid →
            Mongo.match_stage "student_id" sid [result_document n r]
            = [result_document n r]) as Hmatch.
  { intros n r <-. unfold Mongo.match_stage. rewrite filter_cons_True; [done|].
    apply Is_true_true, field_is_str_true. reflexivity. }
  rewrite !match_stage_app, (match_stage_nil _ _ _ Hnone).
  rewrite (Hmatch n1 r1), (Hmatch n2 r2) by done.
  cbn [app]. rewrite !joined_cons.
  change (fields (result_document n1 r1) !! "course_id") with (Some (VStr cid1)).
  change (fields (result_document n2 r2) !! "course_id") with (Some (VStr cid2)).
  rewrite (toObjectId_to_object_id _ _ Hc1 Hlen1).
  rewrite (toObjectId_to_object_id _ _ Hc2 Hlen2), !bind_inr.
  cbn [Mongo.foreign_matches]. rewrite Hcourse1, Hcourse2.
  change (joined (Mongo.collection db "course") []) with
    (inr [] : exn + list (document * document)).
  rewrite !bind_inr. cbn [fmap list_fmap app mret exn_ret].
  rewrite !bind_mret. unfold mret at 1, exn_ret at 1.
  cbn [for_each]. rewrite transcript_row_item.
  rewrite !transcript_item_credits, !transcript_item_grade_point. cbn [fst snd].
  unfold get_default. rewrite Hcredits1.
  change (fields (result_document n1 r1) !! "grade_point") with (Some (VFloat 10)).
  repeat (progress (cbn [default from_option id mul add_to];
                    rewrite ?bind_inr, ?bind_mret)).
  rewrite transcript_row_item.
  rewrite !transcript_item_credits, !transcript_item_grade_point. cbn [fst snd].
  unfold get_default. rewrite Hcredits2.
  change (fields (result_document n2 r2) !! "grade_point") with (Some (VFloat 7)).
  repeat (progress (cbn [default from_option id mul add_to];
                    rewrite ?bind_inr, ?bind_mret)).
  eexists. repeat split; reflexivity.
Qed.

End two_results.

(** *** Rounding to two decimals *)

Section rounding.

Local Open Scope Z_scope.

(** The integer that [round] keeps is the nearest to the hundredfold, and
    the even one of two equally near. *)
Lemma nearest_integer (n d : Z) :
  0 < d →
  let q := n / d in
  let r := n mod d in
  let q' := if 2 * r <? d then q
            else if d <? 2 * r then q + 1
            else if Z.even q then q else q + 1 in
  2 * Z.abs (n - q' * d) < d
  ∨ 2 * Z.abs (n - q' * d) = d ∧ Z.even q' = true.
Proof.
  intros Hd q r q'.
  assert (n = d * q + r) as Hn by apply Z.div_mod, Z.neq_sym, Z.lt_neq, Hd.
  assert (0 <= r < d) as Hr by (apply Z.mod_pos_bound, Hd).
  subst q'. destruct (Z.ltb_spec (2 * r) d) as [Hlow|Hlow].
  - left. replace (n - q * d) with r by lia. lia.
  - destruct (Z.ltb_spec d (2 * r)) as [Hup|Hup].
    + left. replace (n - (q + 1) * d) with (r - d) by lia. lia.
    + right. destruct (Z.even q) eqn:Hq.
      * split; [|done]. replace (n - q * d) with r by lia. lia.
      * split; [replace (n - (q + 1) * d) with (r - d) by lia; lia|].
        rewrite Z.even_add, Hq. reflexivity.
Qed.

(** [round(x, 2)] rounds to two decimals. *)
Lemma round2_two_decimals (x : float) :
  rounded_to_two_decimals x (Python.round2 x).
Proof.
  unfold rounded_to_two_decimals, Python.round2.
  destruct (Prim2SF x) as [| | |s m e]; try reflexivity.
  destruct (0 <=? e) eqn:He; [reflexivity|].
  eexists. split; [reflexivity|].
  rewrite (Z.mul_comm 100 (Z.pos m)).
  apply (nearest_integer (Z.pos m * 100) (2 ^ (- e))).
  apply Z.pow_pos_nonneg; [done|]. apply Z.leb_gt in He. lia.
Qed.

End rounding.

(** C2.  The GPA of a computed transcript is the one of its line items:
    the sum of grade point times credits over the sum of credits, rounded
    to two decimals, when the credits sum to a positive number, and 0.0
    otherwise, in particular when there is no line item.  Rounded to two
    decimals: the GPA is the float nearest to [k / 100] for the integer [k]
    nearest to a hundred times the quotient.  For a student with no result
    yet, 95 marks recorded in a course of 3 credits and 65 in a course of 2
    make a transcript of two line items whose GPA is 8.8; with 3 and 4
    credits the quotient is 58 / 7 = 8.2857... and the GPA is 8.29. *)
Theorem get_transcript_gpa (student_id : string) (db : database) :
  (∀ t, (get_transcript student_id db).1 = inr t →
     gpa_of_items (results t) = inr (gpa t)
     ∧ (∃ points total_points total_credits,
          mapM (λ item, mul (get item "grade_point") (get item "credits"))
            (results t) = inr points
          ∧ total points = inr total_points
          ∧ total ((λ item, get item "credits") <$> results t) = inr total_credits
          ∧ ((0 <? total_credits)%float = true →
             gpa t = Python.round2 (total_points / total_credits))
          ∧ ((0 <? total_credits)%float = false → gpa t = 0%float)
          ∧ ((0 <? total_credits)%float = true →
             rounded_to_two_decimals (total_points / total_credits) (gpa t)))
     ∧ (results t = [] → gpa t = 0%float))
  ∧ (∀ (course1 course2 : string) (n1 n2 s c1 c2 : ObjectId) (d1 d2 : document),
       to_object_id student_id = inr s → resolves db "student" s →
       to_object_id course1 = inr c1 → to_object_id course2 = inr c2 →
       Mongo.by_id c1 (Mongo.collection db "course") = [d1] →
       Mongo.by_id c2 (Mongo.collection db "course") = [d2] →
       fields d1 !! "credits" = Some (VFloat 3) →
       fields d2 !! "credits" = Some (VFloat 2) →
       Forall (λ d, fields d !! "student_id" ≠ Some (VStr student_id))
         (Mongo.collection db "result") →
       ∃ t, (record_and_read student_id course1 course2 n1 n2 db).1 = inr t
            ∧ length (results t) = 2
            ∧ gpa t = 0x1.199999999999ap+3%float (* 8.8 *))
  ∧ (∀ (course1 course2 : string) (n1 n2 s c1 c2 : ObjectId) (d1 d2 : document),
       to_object_id student_id = inr s → resolves db "student" s →
       to_object_id course1 = inr c1 → to_object_id course2 = inr c2 →
       Mongo.by_id c1 (Mongo.collection db "course") = [d1] →
       Mongo.by_id c2 (Mongo.collection db "course") = [d2] →
       fields d1 !! "credits" = Some (VFloat 3) →
       fields d2 !! "credits" = Some (VFloat 4) →
       Forall (λ d, fields d !! "student_id" ≠ Some (VStr student_id))
         (Mongo.collection db "result") →
       ∃ t, (record_and_read student_id course1 course2 n1 n2 db).1 = inr t
            ∧ length (results t) = 2
            ∧ gpa t = 0x1.0947ae147ae14p+3%float (* 8.29 *)
            ∧ ((10 * 3 + 7 * 4) / (3 + 4))%float
              = 0x1.0924924924925p+3%float (* 8.285714285714286 *)).
Proof.
  split.
  - intros t. rewrite get_transcript_run.
    destruct (to_object_id student_id) as [e|oid]; [done|].
    destruct (head _) as [student|]; [|done].
    destruct (pipeline student_id db) as [e|records]; [done|].
    destruct (for_each _ _ _) as [e|[[tp tc] items]] eqn:Hloop; [done|].
    intros [= <-]. simpl.
    apply transcript_loop in Hloop as (-> & points & Hpoints & Htp & Htc). simpl.
    split; [|split].
    + unfold gpa_of_items, total. by rewrite Hpoints, bind_inr, Htp, bind_inr, Htc.
    + exists points, tp, tc.
      split; [done|]. split; [done|]. split; [done|].
      split; [by intros ->|]. split; [by intros ->|].
      intros ->. apply round2_two_decimals.
    + intros Hnil. rewrite Hnil in Htc. by injection Htc as <-.
  - split.
    + intros course1 course2 n1 n2 s c1 c2 d1 d2 Hs Hsres Hc1 Hc2 Hd1 Hd2 Hx1 Hx2 Hnone.
      exact (record_and_read_gpa db student_id course1 course2 n1 n2 s c1 c2 d1 d2
               3 2 Hs Hsres Hc1 Hc2 Hd1 Hd2 Hx1 Hx2 Hnone).
    + intros course1 course2 n1 n2 s c1 c2 d1 d2 Hs Hsres Hc1 Hc2 Hd1 Hd2 Hx1 Hx2 Hnone.
      destruct (record_and_read_gpa db student_id course1 course2 n1 n2 s c1 c2 d1 d2
                  3 4 Hs Hsres Hc1 Hc2 Hd1 Hd2 Hx1 Hx2 Hnone)
        as (t & Hrun & Hlen & Hgpa).
      exists t. split; [done|]. split; [done|]. split; [exact Hgpa|reflexivity].
Qed.

(** In the small database: the two results recorded for its student. *)
Lemma get_transcript_gpa_two :
  ∃ t, (record_and_read (str Demo.ada) (str Demo.maths) (str Demo.physics)
          (Oid "ccccccccccccccccccccccc1") (Oid "ccccccccccccccccccccccc2")
          Demo.db).1 = inr t
       ∧ length (results t) = 2
       ∧ gpa t = 0x1.199999999999ap+3%float.
Proof.
  eapply (proj1 (proj2 (get_transcript_gpa (str Demo.ada) Demo.db))).
  - reflexivity.
  - apply resolves_count. vm_compute. discriminate.
  - reflexivity.
  - reflexivity.
  - vm_compute. reflexivity.
  - vm_compute. reflexivity.
  - reflexivity.
  - reflexivity.
  - exact (Forall_nil_2 _).
Defined.

(** ** The Transcript Aggregator: the inner join *)

(** C4.  The join of results to courses is an inner join: a result
    document whose course reference resolves to no course of the store is
    dropped.  The transcript, and any exception, is what it would be
    without that document in the result collection: no line item, nothing
    in the sums, no error for it. *)
Theorem get_transcript_inner_join (student_id : string) (db : database)
    (before after : list document) (res : document) :
  Mongo.collection db "result" = before ++ res :: after →
  dangling db res →
  (get_transcript student_id db).1
  = (get_transcript student_id (with_collection "result" (before ++ after) db)).1.
Proof.
  intros Hresults Hdangling. rewrite !get_transcript_run.
  destruct (to_object_id student_id) as [e|oid]; [done|].
  rewrite (collection_with_collection_ne "result" "student") by done.
  destruct (head _) as [student|]; [|done].
  assert (pipeline student_id (with_collection "result" (before ++ after) db)
          = pipeline student_id db) as ->.
  { rewrite !pipeline_joined, collection_with_collection.
    rewrite (collection_with_collection_ne "result" "course") by done.
    rewrite Hresults. unfold Mongo.match_stage. rewrite !filter_app, filter_cons.
    case_decide; [|done]. symmetry. by apply joined_drop, dangling_foreign_matches. }
  destruct (pipeline student_id db) as [e|records]; [done|].
  destruct (for_each _ _ _) as [e|[[tp tc] items]]; done.
Qed.

(** With a result for a course that is not in the store added to the two
    results of the small database, the transcript still has the two line
    items and the GPA of 8.8. *)
Lemma get_transcript_inner_join_orphan :
  ∃ t, (get_transcript (str Demo.ada) Demo.db_orphan).1 = inr t
       ∧ length (results t) = 2
       ∧ gpa t = 0x1.199999999999ap+3%float.
Proof.
  rewrite (get_transcript_inner_join (str Demo.ada) Demo.db_orphan
             (Mongo.collection Demo.db_two "result") [] Demo.orphan_result).
  - eexists. split; [vm_compute; reflexivity|]. split; reflexivity.
  - apply collection_with_collection.
  - unfold dangling. simpl. apply count_zero_iff. reflexivity.
Defined.

(** ** The Transcript Aggregator: stored grades *)

Section stored_grades.

Implicit Types (db : database) (courses docs : list document) (d c : document).
Implicit Types (f : document → value).

(** Rewriting the marks leaves every other field of a result document. *)
Lemma set_marks_lookup f d (key : string) :
  key ≠ "marks" → fields (set_marks f d) !! key = fields d !! key.
Proof. intros Hkey. simpl. by rewrite lookup_insert_ne. Qed.

Lemma match_stage_set_marks f (s : string) docs :
  Mongo.match_stage "student_id" s (set_marks f <$> docs)
  = set_marks f <$> Mongo.match_stage "student_id" s docs.
Proof.
  unfold Mongo.match_stage. induction docs as [|d docs IH]; [done|].
  rewrite fmap_cons, !filter_cons, IH. unfold Mongo.field_is_str.
  rewrite set_marks_lookup by done.
  by destruct (decide _).
Qed.

Lemma joined_set_marks f courses docs :
  joined courses (set_marks f <$> docs)
  = on_return (fmap (prod_map (set_marks f) id)) (joined courses docs).
Proof.
  induction docs as [|d docs IH]; [done|].
  rewrite fmap_cons, !joined_cons, IH, set_marks_lookup by done.
  destruct (Mongo.toObjectId _) as [e|local]; [done|]. rewrite !bind_inr.
  destruct (joined courses docs) as [e|rest]; [done|]. simpl.
  unfold mret, exn_ret. f_equal.
  rewrite fmap_app. f_equal. rewrite <- list_fmap_compose.
  by apply list_fmap_ext.
Qed.

(** A line item shows the grade and the grade point stored on the result
    document, and only its ["marks"] follow the marks of the document. *)
Lemma transcript_item_stored d c :
  get (transcript_item (d, c)) "grade_point"
  = get_default (fields d) "grade_point" (VFloat 0)
  ∧ get (transcript_item (d, c)) "grade" = get (fields d) "grade".
Proof. done. Qed.

Lemma transcript_item_set_marks f d c :
  delete "marks" (transcript_item (set_marks f d, c))
  = delete "marks" (transcript_item (d, c)).
Proof.
  unfold transcript_item, get, get_default. cbn [fst snd].
  rewrite (set_marks_lookup f d "grade"), (set_marks_lookup f d "grade_point") by done.
  apply map_eq. intros key.
  destruct (decide (key = "marks")) as [->|Hkey]; [by rewrite !lookup_delete_eq|].
  rewrite !lookup_delete_ne by done. cbn [list_to_map foldr fst snd].
  rewrite !lookup_insert. repeat case_decide; simplify_eq; done.
Qed.

(** The sums of the loop do not read the marks. *)
Lemma transcript_loop_set_marks f (records : list (document * document))
    (tp0 tc0 : float) (items0 items0' : list dict) :
  for_each transcript_row (prod_map (set_marks f) id <$> records) (tp0, tc0, items0')
  = on_return
      (λ acc, (acc.1.1, acc.1.2,
               items0' ++ (transcript_item <$> (prod_map (set_marks f) id <$> records))))
      (for_each transcript_row records (tp0, tc0, items0)).
Proof.
  revert tp0 tc0 items0 items0'.
  induction records as [|[d c] records IH]; intros tp0 tc0 items0 items0'.
  - simpl. by rewrite app_nil_r.
  - rewrite !fmap_cons. cbn [for_each]. rewrite !transcript_row_item.
    rewrite !transcript_item_credits, !transcript_item_grade_point.
    cbn [prod_map fst snd id]. unfold get_default.
    rewrite (set_marks_lookup f d "grade_point") by done.
    destruct (mul _ _) as [e|p]; [done|]. rewrite !bind_inr.
    destruct (add_to tp0 p) as [e|tp1]; [done|]. rewrite !bind_inr.
    destruct (add_to tc0 _) as [e|tc1]; [done|]. rewrite !bind_inr.
    rewrite !bind_mret, (IH tp1 tc1 (items0 ++ [transcript_item (d, c)])).
    destruct (for_each _ records _) as [e|[[tp tc] items]]; [done|]. simpl.
    by rewrite <- app_assoc.
Qed.

End stored_grades.

Section stored_on_read.

Implicit Types (db : database) (courses docs : list document).

Lemma pipeline_with_marks (f : document → value) (student_id : string) db :
  pipeline student_id (with_marks f db)
  = on_return (fmap (prod_map (set_marks f) id)) (pipeline student_id db).
Proof.
  unfold with_marks. rewrite !pipeline_joined, collection_with_collection.
  rewrite (collection_with_collection_ne "result" "course") by done.
  by rewrite match_stage_set_marks, joined_set_marks.
Qed.

Lemma items_without_marks (f : document → value) (records : list (document * document)) :
  delete "marks" <$> (transcript_item <$> (prod_map (set_marks f) id <$> records))
  = delete "marks" <$> (transcript_item <$> records).
Proof.
  induction records as [|[d c] records IH]; [done|].
  rewrite !fmap_cons, IH. cbn [prod_map fst snd id].
  by rewrite transcript_item_set_marks.
Qed.

(** The joined records pair result documents of the matched ones with
    course documents of the store. *)
Lemma joined_elem_of courses docs (records : list (document * document)) :
  joined courses docs = inr records →
  Forall (λ r, r.1 ∈ docs ∧ r.2 ∈ courses) records.
Proof.
  revert records. induction docs as [|d docs IH]; intros records.
  - intros [= <-]. constructor.
  - rewrite joined_cons.
    destruct (Mongo.toObjectId _) as [e|local]; [done|]. rewrite bind_inr.
    destruct (joined courses docs) as [e|rest]; [done|]. rewrite bind_inr.
    intros [= <-]. apply Forall_app. split.
    + apply Forall_fmap, Forall_forall. intros c Hc. simpl. split; [left|].
      destruct local as [oid|]; simpl in Hc; [|by apply not_elem_of_nil in Hc].
      unfold Mongo.by_id in Hc. by apply list_elem_of_filter in Hc as [_ ?].
    + eapply Forall_impl; [by apply IH|]. intros r [? ?]. split; [by right|done].
Qed.

Lemma pipeline_elem_of (student_id : string) db (records : list (document * document)) :
  pipeline student_id db = inr records →
  Forall (λ r, r.1 ∈ Mongo.collection db "result"
               ∧ r.2 ∈ Mongo.collection db "course") records.
Proof.
  rewrite pipeline_joined. intros Hjoined.
  eapply Forall_impl; [by eapply joined_elem_of|].
  intros r [Hres ?]. split; [|done].
  unfold Mongo.match_stage in Hres. by apply list_elem_of_filter in Hres as [_ ?].
Qed.

End stored_on_read.

(** C7.  The Transcript Aggregator reads the grade and the grade point
    stored on the result documents and never computes them from the marks:
    whatever marks the result documents are given, the transcript is the
    same but for the marks its line items echo; each line item stands for
    a result document of the store and shows the grade and grade point
    stored on it.  A stored result of 95 marks with grade E and grade point
    5.0 comes out with E and 5.0, and a GPA of 5.0, where the Grade
    Calculator gives A+ and 10.0 for 95. *)
Theorem get_transcript_stored_grades (student_id : string) (db : database) :
  (∀ f : document → value,
     on_return without_marks (get_transcript student_id (with_marks f db)).1
     = on_return without_marks (get_transcript student_id db).1)
  ∧ (∀ t, (get_transcript student_id db).1 = inr t →
       ∃ records,
         pipeline student_id db = inr records
         ∧ Forall2 (λ r item,
                      r.1 ∈ Mongo.collection db "result"
                      ∧ get item "grade_point"
                        = get_default (fields r.1) "grade_point" (VFloat 0)
                      ∧ get item "grade" = get (fields r.1) "grade")
             records (results t))
  ∧ (∃ t item,
       (get_transcript (str Demo.ada) Demo.db_odd).1 = inr t
       ∧ results t = [item]
       ∧ get item "marks" = VFloat 95
       ∧ get item "grade" = VStr "E"
       ∧ get item "grade_point" = VFloat 5
       ∧ gpa t = 5%float
       ∧ calculate_grade 95 = ("A+", 10%float)).
Proof.
  split; [|split].
  - intros f. rewrite !get_transcript_run, pipeline_with_marks.
    destruct (to_object_id student_id) as [e|oid]; [done|].
    unfold with_marks at 1.
    rewrite (collection_with_collection_ne "result" "student") by done.
    destruct (head _) as [student|]; [|done].
    destruct (pipeline student_id db) as [e|records]; [done|]. simpl.
    rewrite (transcript_loop_set_marks f records _ _ [] []).
    destruct (for_each _ records _) as [e|[[tp tc] items]] eqn:Hloop; [done|].
    apply transcript_loop in Hloop as (-> & _). simpl.
    unfold without_marks. simpl. by rewrite items_without_marks.
  - intros t. rewrite get_transcript_run.
    destruct (to_object_id student_id) as [e|oid]; [done|].
    destruct (head _) as [student|]; [|done].
    destruct (pipeline student_id db) as [e|records] eqn:Hpipe; [done|].
    destruct (for_each _ _ _) as [e|[[tp tc] items]] eqn:Hloop; [done|].
    intros [= <-]. simpl. exists records. split; [done|].
    apply transcript_loop in Hloop as (-> & _). simpl.
    apply Forall2_fmap_r, Forall_Forall2_diag.
    eapply Forall_impl; [by eapply pipeline_elem_of|].
    intros [d c] [Hres _]. split; [done|]. apply transcript_item_stored.
  - eexists _, _. split; [vm_compute; reflexivity|]. repeat split; reflexivity.
Qed.

(** The odd result of the small database, read back. *)
Lemma get_transcript_stored_grades_odd :
  ∃ records,
    pipeline (str Demo.ada) Demo.db_odd = inr records
    ∧ (λ r, get_default (fields r.1) "grade_point" (VFloat 0)) <$> records
      = [VFloat 5].
Proof.
  destruct (get_transcript (str Demo.ada) Demo.db_odd).1 as [e|t] eqn:Hrun;
    [vm_compute in Hrun; discriminate|].
  destruct (proj1 (proj2 (get_transcript_stored_grades (str Demo.ada) Demo.db_odd))
              t Hrun) as (records & Hpipe & _).
  exists records. split; [done|].
  vm_compute in Hpipe. injection Hpipe as <-. reflexivity.
Defined.

(** * Further properties of the handlers *)

(** ** The Grade Calculator is monotone *)

Section grades_order.

Lemma SFleb_trans (x y z : spec_float) :
  SFleb x y = true → SFleb y z = true → SFleb x z = true.
Proof.
  unfold SFleb.
  destruct x as [[]|[]| |[] mx ex], y as [[]|[]| |[] my ey], z as [[]|[]| |[] mz ez];
    simpl; try discriminate; try reflexivity;
    change (Pos.compare_cont Eq) with Pos.compare;
    destruct (Z.compare_spec ex ey), (Z.compare_spec ey ez), (Z.compare_spec ex ez);
    try discriminate; try reflexivity; try lia;
    destruct (Pos.compare_spec mx my), (Pos.compare_spec my mz), (Pos.compare_spec mx mz);
    simpl; try discriminate; try reflexivity; try lia.
Qed.

Lemma leb_trans (x y z : float) :
  (x <=? y)%float = true → (y <=? z)%float = true → (x <=? z)%float = true.
Proof. rewrite !leb_spec. apply SFleb_trans. Qed.

End grades_order.

(** X1.  Higher marks never get a lower grade point: for marks [m1] at most
    [m2], the grade point of [m1] is at most the grade point of [m2]. *)
Theorem calculate_grade_monotone (m1 m2 : float) :
  (m1 <=? m2)%float = true →
  ((calculate_grade m1).2 <=? (calculate_grade m2).2)%float = true.
Proof.
  intros Hle. unfold calculate_grade.
  repeat match goal with
  | |- context [(?c <=? m1)%float] =>
      let E := fresh "E" in
      destruct (c <=? m1)%float eqn:E;
      [ rewrite (leb_trans c m1 m2 E Hle) | ]
  end; try reflexivity;
  repeat match goal with
  | |- context [(?c <=? m2)%float] => destruct (c <=? m2)%float
  end; reflexivity.
Qed.

(** 65 marks against 85. *)
Lemma calculate_grade_monotone_65_85 :
  ((calculate_grade 65).2 <=? (calculate_grade 85).2)%float = true.
Proof. apply calculate_grade_monotone. reflexivity. Defined.

(** ** The Result Recorder: every outcome *)

Section recorder_outcomes.

Implicit Types (db : database) (result : ResultCreate).

(** A call that returns passed the four checks and the model's, returns the
    calculator's grade, and appended its document. *)
Lemma create_result_returns new_id result db (response : dict) db' :
  create_result new_id result db = (inr response, db') →
  (∃ s c, to_object_id (student_id result) = inr s ∧ resolves db "student" s
          ∧ to_object_id (course_id result) = inr c ∧ resolves db "course" c)
  ∧ out_of_range (marks result) = false
  ∧ response = list_to_map
                 [ ("id", VStr (str new_id));
                   ("grade", VStr (calculate_grade (marks result)).1);
                   ("grade_point", VFloat (calculate_grade (marks result)).2) ]
  ∧ db' = with_collection "result"
            (Mongo.collection db "result" ++ [result_document new_id result]) db.
Proof.
  rewrite create_result_run.
  destruct (to_object_id (student_id result)) as [e|s] eqn:Hs; [done|].
  case_bool_decide as Hsres; [done|].
  destruct (to_object_id (course_id result)) as [e|c] eqn:Hc; [done|].
  case_bool_decide as Hcres; [done|].
  cbv zeta. unfold schemas.Result_new, out_of_range.
  rewrite (orb_comm (marks result <? 0)%float).
  destruct (_ || _); [done|]. intros [= <- <-].
  split; [|done]. exists s, c. repeat split; [by apply resolves_count..].
Qed.

(** A call that raises raised at one of its five checks. *)
Lemma create_result_raises new_id result db (e : exn) db' :
  create_result new_id result db = (inl e, db') →
  e = InvalidIdFormat ∨ e = NotFoundError "Student"
  ∨ e = NotFoundError "Course" ∨ e = ValidationError.
Proof.
  rewrite create_result_run.
  destruct (to_object_id (student_id result)) as [e'|s] eqn:Hs.
  { unfold to_object_id in Hs. destruct (ObjectId_of_str _); simplify_eq/=.
    intros [= <- _]. by left. }
  case_bool_decide; [intros [= <- _]; right; by left|].
  destruct (to_object_id (course_id result)) as [e'|c] eqn:Hc.
  { unfold to_object_id in Hc. destruct (ObjectId_of_str _); simplify_eq/=.
    intros [= <- _]. by left. }
  case_bool_decide; [intros [= <- _]; right; right; by left|].
  cbv zeta. unfold schemas.Result_new.
  destruct (_ || _); [|done]. intros [= <- _]. by do 3 right.
Qed.

(** A well-formed identifier is not the empty string. *)
Lemma to_object_id_nonempty (id_str : string) (oid : ObjectId) :
  to_object_id id_str = inr oid → id_str ≠ "".
Proof.
  unfold to_object_id. destruct (ObjectId_of_str id_str) as [oid'|] eqn:Hparse; [|done].
  apply ObjectId_of_str_length in Hparse. by intros _ ->.
Qed.

(** [list_results] under a non-empty filter. *)
Lemma list_results_filtered (s : string) db :
  s ≠ "" →
  list_results (Some s) db
  = (inr (with_str_id <$> Mongo.match_stage "student_id" s (Mongo.collection db "result")),
     db).
Proof.
  intros Hs. unfold list_results, get_documents, Mongo.find, mbind, M_bind; simpl.
  rewrite bool_decide_eq_false_2 by done. by rewrite find_by_field.
Qed.

End recorder_outcomes.

(** X3.  Every outcome of [create_result].  Either it raises, with
    "Invalid id format", "Student not found", "Course not found" or the
    model's [ValidationError], and the database is as before; or it
    returns, and then both identifiers are well-formed and resolve, the
    marks are not out of range, the response carries the new identifier
    with the calculator's grade and grade point, and exactly one document
    has been appended to the result collection. *)
Theorem create_result_outcomes (new_id : ObjectId) (result : ResultCreate)
    (db : database) :
  match create_result new_id result db with
  | (inl e, db') =>
      db' = db
      ∧ (e = InvalidIdFormat ∨ e = NotFoundError "Student"
         ∨ e = NotFoundError "Course" ∨ e = ValidationError)
  | (inr response, db') =>
      (∃ s c, to_object_id (student_id result) = inr s ∧ resolves db "student" s
              ∧ to_object_id (course_id result) = inr c ∧ resolves db "course" c)
      ∧ out_of_range (marks result) = false
      ∧ response = list_to_map
                     [ ("id", VStr (str new_id));
                       ("grade", VStr (calculate_grade (marks result)).1);
                       ("grade_point", VFloat (calculate_grade (marks result)).2) ]
      ∧ db' = with_collection "result"
                (Mongo.collection db "result" ++ [result_document new_id result]) db
  end.
Proof.
  destruct (create_result new_id result db) as [[e|response] db'] eqn:Hrun.
  - split; [by eapply create_result_raise_no_write|by eapply create_result_raises].
  - by apply create_result_returns.
Qed.

(** X4.  A result that was recorded is listed: after a [create_result]
    that returns, [list_results] for the student identifier of the request
    returns what it returned before followed by the new document, whose
    ["_id"], ["grade"] and ["grade_point"] are those of the response. *)
Theorem create_result_then_list_results (new_id : ObjectId) (result : ResultCreate)
    (db db' : database) (response : dict) :
  create_result new_id result db = (inr response, db') →
  ∃ before new,
    list_results (Some (student_id result)) db = (inr before, db)
    ∧ list_results (Some (student_id result)) db' = (inr (before ++ [new]), db')
    ∧ get new "_id" = get response "id"
    ∧ get new "student_id" = VStr (student_id result)
    ∧ get new "course_id" = VStr (course_id result)
    ∧ get new "marks" = VFloat (marks result)
    ∧ get new "grade" = get response "grade"
    ∧ get new "grade_point" = get response "grade_point".
Proof.
  intros Hrun.
  apply create_result_returns in Hrun as ((s & c & Hs & _) & _ & -> & ->).
  apply to_object_id_nonempty in Hs.
  eexists _, (with_str_id (result_document new_id result)).
  rewrite !list_results_filtered by done.
  split; [done|]. rewrite collection_with_collection, match_stage_app, fmap_app.
  split; [|done]. do 3 f_equal.
  unfold Mongo.match_stage. rewrite filter_cons_True; [done|].
  apply Is_true_true, field_is_str_true. reflexivity.
Qed.

(** In the small database: 95 marks recorded for its student. *)
Lemma create_result_then_list_results_ada :
  ∃ before new,
    list_results (Some (str Demo.ada)) Demo.db = (inr before, Demo.db)
    ∧ list_results (Some (str Demo.ada))
        (create_result (Oid "ccccccccccccccccccccccc1")
           (Demo.request Demo.maths 95) Demo.db).2
      = (inr (before ++ [new]),
         (create_result (Oid "ccccccccccccccccccccccc1")
            (Demo.request Demo.maths 95) Demo.db).2)
    ∧ get new "grade" = VStr "A+".
Proof.
  destruct (create_result (Oid "ccccccccccccccccccccccc1")
              (Demo.request Demo.maths 95) Demo.db) as [r db'] eqn:Hrun.
  destruct r as [e|response].
  { exfalso.
    destruct (create_result_recorded (Oid "ccccccccccccccccccccccc1")
                (Demo.request Demo.maths 95) Demo.db Demo.ada Demo.maths)
      as [_ [response Hresponse]];
      [reflexivity|by apply resolves_count|reflexivity|by apply resolves_count
      |reflexivity|].
    rewrite Hrun in Hresponse. discriminate Hresponse. }
  destruct (create_result_then_list_results _ _ _ _ _ Hrun)
    as (before & new & Hbefore & Hafter & _ & _ & _ & _ & Hgrade & _).
  exists before, new. split; [done|]. split; [done|].
  rewrite Hgrade.
  apply create_result_returns in Hrun as (_ & _ & -> & _). reflexivity.
Defined.

(** ** A student: created, then read *)

Section created_then_read.

Implicit Types (db : database) (docs : list document).

Lemma create_document_run new_id (name : string) (data : dict) db :
  create_document new_id name data db
  = (inr (str new_id),
     with_collection name (Mongo.collection db name ++ [Doc new_id data]) db).
Proof. reflexivity. Qed.

(** A new document under a fresh identifier is the one its identifier
    finds. *)
Lemma by_id_fresh db (name : string) new_id (data : dict) :
  ¬ resolves db name new_id → String.length (str new_id) = 24 →
  Mongo.by_id new_id (Mongo.collection db name ++ [Doc new_id data])
  = [Doc new_id data].
Proof.
  intros Hfresh Hlen. unfold Mongo.by_id. rewrite filter_app.
  apply by_id_nil_iff in Hfresh. unfold Mongo.by_id in Hfresh. rewrite Hfresh.
  by rewrite filter_cons_True.
Qed.

(** An identifier that reads back as itself has twelve bytes. *)
Lemma genuine_length (oid : ObjectId) : genuine oid → String.length (str oid) = 24.
Proof. apply ObjectId_of_str_length. Qed.

End created_then_read.

(** X6.  A student that was created is found: under an identifier that is
    new to the student collection and reads back as itself, the string
    [create_student] returns is accepted by [get_transcript], which answers
    neither "Invalid id format" nor "Student not found"; any transcript it
    returns carries the fields of the model under ["student"], and when no
    stored result names the student it returns one with GPA 0.0 and no line
    item. *)
Theorem create_student_then_get_transcript (new_id : ObjectId)
    (model : schemas.Student) (db : database) :
  ¬ resolves db "student" new_id →
  genuine new_id →
  let db' := (create_student new_id model db).2 in
  let summary : dict :=
    list_to_map
      [ ("id", VStr (str new_id));
        ("first_name", VStr (schemas.first_name model));
        ("last_name", VStr (schemas.last_name model));
        ("roll_number", VStr (schemas.roll_number model));
        ("class_name", VStr (schemas.class_name model));
        ("year", VInt (schemas.year model)) ] in
  (get_transcript (str new_id) db').1 ≠ inl InvalidIdFormat
  ∧ (get_transcript (str new_id) db').1 ≠ inl (NotFoundError "Student")
  ∧ (∀ t, (get_transcript (str new_id) db').1 = inr t → student t = summary)
  ∧ (Forall (λ d, fields d !! "student_id" ≠ Some (VStr (str new_id)))
       (Mongo.collection db "result") →
     (get_transcript (str new_id) db').1
     = inr {| student := summary; gpa := 0%float; results := [] |}).
Proof.
  intros Hfresh Hgenuine db' summary.
  assert (to_object_id (str new_id) = inr new_id) as Hid
    by (unfold to_object_id; by rewrite Hgenuine).
  assert (head (Mongo.by_id new_id (Mongo.collection db' "student"))
          = Some (Doc new_id (schemas.Student_model_dump model))) as Hhead.
  { unfold db', create_student, mbind, M_bind. rewrite create_document_run.
    cbn [fst snd mret M_ret]. rewrite collection_with_collection.
    rewrite by_id_fresh; [done..|]. by apply genuine_length. }
  assert (Mongo.collection db' "result" = Mongo.collection db "result") as Hresults.
  { unfold db', create_student, mbind, M_bind. rewrite create_document_run.
    cbn [fst snd mret M_ret]. by rewrite collection_with_collection_ne. }
  rewrite get_transcript_run, Hid, Hhead.
  change (student_summary (Doc new_id (schemas.Student_model_dump model)))
    with summary.
  repeat split.
  - destruct (pipeline _ _) as [e|records] eqn:Hp; simpl.
    { apply pipeline_raises in Hp as ->. done. }
    destruct (for_each _ _ _) as [e|[[tp tc] items]] eqn:Hl; simpl; [|done].
    apply transcript_loop_raises in Hl as [-> | ->]; done.
  - destruct (pipeline _ _) as [e|records] eqn:Hp; simpl.
    { apply pipeline_raises in Hp as ->. done. }
    destruct (for_each _ _ _) as [e|[[tp tc] items]] eqn:Hl; simpl; [|done].
    apply transcript_loop_raises in Hl as [-> | ->]; done.
  - intros t. destruct (pipeline _ _) as [e|records]; [done|].
    destruct (for_each _ _ _) as [e|[[tp tc] items]]; [done|].
    by intros [= <-].
  - intros Hnone. unfold pipeline. rewrite Hresults, (match_stage_nil _ _ _ Hnone).
    reflexivity.
Qed.

(** In the small database: a second student. *)
Lemma create_student_then_get_transcript_grace :
  ∃ t, (get_transcript (str Demo.nobody)
          (create_student Demo.nobody
             {| schemas.first_name := "Grace"; schemas.last_name := "Hopper";
                schemas.roll_number := "R-2"; schemas.class_name := "BSc-1";
                schemas.year := 2024; schemas.email := None |} Demo.db).2).1
       = inr t
       ∧ get (student t) "first_name" = VStr "Grace"
       ∧ results t = [].
Proof.
  eexists. split.
  - refine (proj2 (proj2 (proj2
      (create_student_then_get_transcript Demo.nobody _ Demo.db _ _))) _).
    + apply count_zero_iff. reflexivity.
    + reflexivity.
    + exact (Forall_nil_2 _).
  - split; reflexivity.
Defined.

(** ** The Transcript Aggregator: whose results, which courses *)

Section line_items.

Implicit Types (db : database) (courses docs : list document) (d c : document).

(** What [$toObjectId] made of a field it converted. *)
Lemma toObjectId_Some (v : option value) (oid : ObjectId) :
  Mongo.toObjectId v = inr (Some oid) →
  ∃ cid, v = Some (VStr cid) ∧ to_object_id cid = inr oid.
Proof.
  destruct v as [[| | |cid]|]; simpl; try done.
  destruct (Mongo.ObjectId_of_hex cid) as [oid'|] eqn:Hparse; [|done].
  intros [= <-]. exists cid. unfold to_object_id.
  by rewrite (ObjectId_of_hex_of_str _ _ Hparse).
Qed.

(** Identifiers that are unique find at most one document. *)
Lemma by_id_NoDup (oid : ObjectId) docs :
  NoDup (_id <$> docs) → Mongo.by_id oid docs = [] ∨ ∃ d, Mongo.by_id oid docs = [d].
Proof.
  unfold Mongo.by_id. induction docs as [|d docs IH]; [by left|].
  rewrite fmap_cons, NoDup_cons. intros [Hd Hdocs]. rewrite filter_cons.
  destruct (decide (_id d = oid ∧ String.length (str oid) = 24)) as [Hid|Hid];
    [|by apply IH].
  right. exists d. f_equal.
  apply (by_id_nil_iff oid docs). intros (d' & Hd').
  apply elem_of_by_id in Hd' as (Hd' & Hid' & _). apply Hd.
  destruct Hid as [Hid _]. rewrite Hid, <- Hid'. by apply list_elem_of_fmap_2.
Qed.

(** The joined records, one by one. *)
Lemma joined_records courses docs (records : list (document * document)) :
  joined courses docs = inr records →
  Forall (λ r, r.1 ∈ docs ∧ r.2 ∈ courses
               ∧ ∃ cid, fields r.1 !! "course_id" = Some (VStr cid)
                        ∧ to_object_id cid = inr (_id r.2)) records
  ∧ (NoDup (_id <$> courses) → sublist (fst <$> records) docs).
Proof.
  revert records. induction docs as [|d docs IH]; intros records.
  - intros [= <-]. split; [constructor|]. intros _. constructor.
  - rewrite joined_cons.
    destruct (Mongo.toObjectId _) as [e|local] eqn:Hlocal; [done|]. rewrite bind_inr.
    destruct (joined courses docs) as [e|rest]; [done|]. rewrite bind_inr.
    intros [= <-]. destruct (IH rest eq_refl) as [IHall IHsub]. split.
    + apply Forall_app. split.
      * apply Forall_fmap, Forall_forall. intros c Hc. simpl.
        destruct local as [oid|]; simpl in Hc; [|by apply not_elem_of_nil in Hc].
        apply elem_of_by_id in Hc as (Hc & Hid & _).
        split; [left|]. split; [done|].
        apply toObjectId_Some in Hlocal as (cid & Hcid & Hoid).
        exists cid. by rewrite Hid.
      * eapply Forall_impl; [exact IHall|].
        intros r (? & ? & ?). split; [by right|done].
    + intros Hnodup. rewrite fmap_app, <- list_fmap_compose.
      destruct local as [oid|]; simpl.
      * destruct (by_id_NoDup oid courses Hnodup) as [-> | [c ->]]; simpl.
        -- by apply sublist_cons, IHsub.
        -- by apply sublist_skip, IHsub.
      * by apply sublist_cons, IHsub.
Qed.

End line_items.

(** X7.  A transcript depends on the result collection only through the
    documents whose [student_id] is the requested string: two databases
    with the same students, the same courses and the same such documents
    give the same outcome, whatever else their result collections hold. *)
Theorem get_transcript_own_results (student_id : string) (db db' : database) :
  Mongo.collection db' "student" = Mongo.collection db "student" →
  Mongo.collection db' "course" = Mongo.collection db "course" →
  Mongo.match_stage "student_id" student_id (Mongo.collection db' "result")
  = Mongo.match_stage "student_id" student_id (Mongo.collection db "result") →
  (get_transcript student_id db').1 = (get_transcript student_id db).1.
Proof.
  intros Hstudents Hcourses Hresults.
  rewrite !get_transcript_run, !pipeline_joined, Hstudents, Hcourses, Hresults.
  destruct (to_object_id student_id) as [e|oid]; [done|].
  destruct (head _) as [student|]; [|done].
  destruct (joined _ _) as [e|records]; [done|].
  destruct (for_each _ _ _) as [e|[[tp tc] items]]; done.
Qed.

(** In the small database: a result of another student changes nothing. *)
Lemma get_transcript_own_results_stranger :
  let stranger :=
    Doc (Oid "ccccccccccccccccccccccc5") (list_to_map
      [ ("student_id", VStr (str Demo.nobody)); ("course_id", VStr (str Demo.maths));
        ("marks", VFloat 20); ("grade", VStr "F"); ("grade_point", VFloat 0) ]) in
  (get_transcript (str Demo.ada)
     (with_collection "result" [stranger; Demo.odd_result] Demo.db)).1
  = (get_transcript (str Demo.ada) Demo.db_odd).1.
Proof.
  intros stranger. apply get_transcript_own_results.
  - unfold Demo.db_odd. by rewrite !collection_with_collection_ne.
  - unfold Demo.db_odd. by rewrite !collection_with_collection_ne.
  - unfold Demo.db_odd. rewrite !collection_with_collection. reflexivity.
Defined.

(** X8.  The line items of a transcript are, in order, those of joined
    records; each record pairs a stored result whose [student_id] is the
    requested string with a stored course whose identifier is the one the
    result's [course_id] converts to; and when the identifiers of the
    courses are unique, the results of the records are a sublist of the
    student's results, so that no result gives more than one line item. *)
Theorem get_transcript_line_items (student_id : string) (db : database)
    (t : Transcript) :
  (get_transcript student_id db).1 = inr t →
  ∃ records,
    results t = transcript_item <$> records
    ∧ Forall (λ r, r.1 ∈ Mongo.collection db "result"
                   ∧ fields r.1 !! "student_id" = Some (VStr student_id)
                   ∧ r.2 ∈ Mongo.collection db "course"
                   ∧ ∃ cid, fields r.1 !! "course_id" = Some (VStr cid)
                            ∧ to_object_id cid = inr (_id r.2)) records
    ∧ (NoDup (_id <$> Mongo.collection db "course") →
       sublist (fst <$> records)
         (Mongo.match_stage "student_id" student_id (Mongo.collection db "result"))).
Proof.
  rewrite get_transcript_run.
  destruct (to_object_id student_id) as [e|oid]; [done|].
  destruct (head _) as [student|]; [|done].
  rewrite pipeline_joined.
  destruct (joined _ _) as [e|records] eqn:Hjoined; [done|].
  destruct (for_each _ _ _) as [e|[[tp tc] items]] eqn:Hloop; [done|].
  intros [= <-]. simpl. exists records.
  apply transcript_loop in Hloop as (-> & _).
  apply joined_records in Hjoined as [Hall Hsub].
  split; [done|]. split; [|done].
  eapply Forall_impl; [exact Hall|]. intros r (Hres & Hc & Hcid).
  unfold Mongo.match_stage in Hres. apply list_elem_of_filter in Hres as [Hsid Hres].
  split; [done|]. split; [|done].
  apply field_is_str_true. by apply Is_true_true.
Qed.

(** In the small database: the transcript of the odd result. *)
Lemma get_transcript_line_items_odd :
  ∃ t records,
    (get_transcript (str Demo.ada) Demo.db_odd).1 = inr t
    ∧ results t = transcript_item <$> records
    ∧ Forall (λ r, r.1 ∈ Mongo.collection Demo.db_odd "result"
                   ∧ r.2 ∈ Mongo.collection Demo.db_odd "course") records.
Proof.
  destruct (get_transcript (str Demo.ada) Demo.db_odd).1 as [e|t] eqn:Hrun;
    [vm_compute in Hrun; discriminate|].
  destruct (get_transcript_line_items _ _ _ Hrun) as (records & Hitems & Hall & _).
  exists t, records. split; [done|]. split; [done|].
  eapply Forall_impl; [exact Hall|]. by intros r (? & _ & ? & _).
Defined.
